(** * Dynamic inventory: Terraform output to Ansible inventory

    A shallow embedding of [ansible/dynamic_inventory.py].  The script
    runs [terraform output -json], parses the captured text, picks two
    entries out of the parsed document and prints an Ansible inventory.

    Python values that [json.loads] can produce are embedded as the
    inductive type [json]; the two output streams are explicit state; a
    raised exception is an outcome of its own, so that the [try]/[except]
    blocks of the script are modelled clause by clause. *)

From Stdlib Require Import ZArith List Lia.
From Stdlib Require Import PrimFloat.
From Stdlib Require Strings.Byte.
From Stdlib Require Import Ascii.
From stdpp Require Import base strings list pretty.

Local Open Scope string_scope.
Local Open Scope Z_scope.
Local Set Warnings "-register-all".

(** ** Python values *)

(** The values [json.loads] returns: [None], [bool], [int], [float],
    [str], [list] and [dict] with [str] keys.  A [dict] keeps insertion
    order (it decides the printed text), hence an association list; a
    parsed dict holds each key once. *)
Inductive json : Type :=
| JNull
| JBool (b : bool)
| JInt (n : Z)
| JFloat (f : float)
| JString (s : string)
| JArray (items : list json)
| JObject (fields : list (string * json)).

(** [type(v).__name__], as it appears in an [AttributeError]. *)
Definition type_name (v : json) : string :=
  match v with
  | JNull => "NoneType"
  | JBool _ => "bool"
  | JInt _ => "int"
  | JFloat _ => "float"
  | JString _ => "str"
  | JArray _ => "list"
  | JObject _ => "dict"
  end.

(** Python's truth value, the test behind [if v] and [not v]. *)
Definition truthy (v : json) : bool :=
  match v with
  | JNull => false
  | JBool b => b
  | JInt n => negb (n =? 0)
  | JFloat f => negb (PrimFloat.eqb f PrimFloat.zero)
  | JString s => negb (String.eqb s "")
  | JArray items => match items with [] => false | _ :: _ => true end
  | JObject fields => match fields with [] => false | _ :: _ => true end
  end.

Definition py_not (v : json) : bool := negb (truthy v).

(** Key lookup in a dict. *)
Fixpoint assoc (k : string) (fields : list (string * json)) : option json :=
  match fields with
  | [] => None
  | (k', v) :: rest => if String.eqb k k' then Some v else assoc k rest
  end.

Definition keys (fields : list (string * json)) : list string :=
  map fst fields.

(** ** Exceptions, streams and the script monad *)

Inductive exn : Type :=
| CalledProcessError (returncode : Z)
| JSONDecodeError (msg : string)
| KeyError (key : string)
| AttributeError (msg : string)
| OSError (msg : string)
| SystemExit (code : Z)
| UnicodeDecodeError (msg : string)
| ValueError (msg : string)
| RecursionError (msg : string).

Inductive result (A : Type) : Type :=
| Ok (a : A)
| Raise (e : exn).
Arguments Ok {A} a.
Arguments Raise {A} e.

(** [sys.stdout] and [sys.stderr], as the text written so far. *)
Record io : Type := mkIO { stdout : string; stderr : string }.

Definition M (A : Type) : Type := io -> result A * io.

Definition ret {A} (a : A) : M A := fun s => (Ok a, s).

Definition raise {A} (e : exn) : M A := fun s => (Raise e, s).

Definition bind {A B} (m : M A) (k : A -> M B) : M B :=
  fun s =>
    match m s with
    | (Ok a, s') => k a s'
    | (Raise e, s') => (Raise e, s')
    end.

Notation "x <- m ;;; k" := (bind m (fun x => k))
  (at level 20, m at level 100, k at level 200, only parsing).
Notation "'run' m ;;; k" := (bind m (fun _ => k))
  (at level 20, m at level 100, k at level 200, only parsing).

(** A [try] block with its [except] clauses: [handler e] is [Some h]
    when a clause matches [e], and [None] when none does, in which case
    the exception goes on to the caller. *)
Definition try_except {A} (body : M A) (handler : exn -> option (M A)) : M A :=
  fun s =>
    match body s with
    | (Ok a, s') => (Ok a, s')
    | (Raise e, s') =>
        match handler e with
        | Some h => h s'
        | None => (Raise e, s')
        end
    end.

Definition newline : string := String (Ascii.ascii_of_nat 10) EmptyString.

(** [print(text)] *)
Definition print (text : string) : M unit :=
  fun s => (Ok tt, mkIO (stdout s +:+ text +:+ newline) (stderr s)).

(** [print(text, file=sys.stderr)] *)
Definition print_err (text : string) : M unit :=
  fun s => (Ok tt, mkIO (stdout s) (stderr s +:+ text +:+ newline)).

(** [o.get(key, default)]: a method of [dict] only; on any other value
    the attribute lookup itself fails. *)
Definition py_get (o : json) (key : string) (default : json) : M json :=
  match o with
  | JObject fields =>
      ret (match assoc key fields with Some v => v | None => default end)
  | _ =>
      raise (AttributeError
               ("'" +:+ type_name o +:+ "' object has no attribute 'get'"))
  end.

(** ** The inventory document *)

(** The return value of both early exits of [generate_inventory]:
    [{"_meta": {"hostvars": {}}}]. *)
Definition empty_inventory : json :=
  JObject [("_meta", JObject [("hostvars", JObject [])])].

(** The dict built at the end of [generate_inventory]. *)
Definition inventory_of (ec2_ip vault_domain vault_version vault_token : json)
  : json :=
  JObject
    [("vault_servers",
       JObject
         [("hosts", JArray [JString "vault_server"]);
          ("vars",
            JObject
              [("vault_version", vault_version);
               ("vault_domain", vault_domain);
               ("vault_root_token", vault_token)])]);
     ("_meta",
       JObject
         [("hostvars",
            JObject
              [("vault_server",
                 JObject
                   [("ansible_host", ec2_ip);
                    ("ansible_user", JString "ubuntu");
                    ("ansible_ssh_private_key_file",
                      JString "../vault-ssh-key.pem");
                    ("ansible_ssh_common_args",
                      JString "-o StrictHostKeyChecking=no")])])])].

(** ** The serializer *)

(** [json.dumps] belongs to Python's standard library.  Its walk over
    the document ([_make_iterencode] of [json.encoder]) is written out,
    so that the printed text is concrete; its two leaf formatters, the
    escaping of a string and the [repr] of a float, are parameters. *)
Section Encoder.

Variable encode_basestring_ascii : string -> string.
Variable float_repr : float -> string.

Fixpoint spaces (n : nat) : string :=
  match n with
  | O => ""
  | S n' => " " +:+ spaces n'
  end.

(** ['\n' + _indent * level], or nothing when [indent] is [None]. *)
Definition newline_indent (indent : option nat) (level : nat) : string :=
  match indent with
  | Some width => newline +:+ spaces (width * level)
  | None => ""
  end.

(** [','] under an indentation, [', '] otherwise. *)
Definition item_separator (indent : option nat) : string :=
  match indent with
  | Some _ => ","
  | None => ", "
  end.

Definition key_separator : string := ": ".

Fixpoint join (sep : string) (chunks : list string) : string :=
  match chunks with
  | [] => ""
  | [c] => c
  | c :: rest => c +:+ sep +:+ join sep rest
  end.

Fixpoint iterencode (indent : option nat) (level : nat) (o : json) : string :=
  match o with
  | JString s => encode_basestring_ascii s
  | JNull => "null"
  | JBool true => "true"
  | JBool false => "false"
  | JInt n => pretty n
  | JFloat f => float_repr f
  | JArray [] => "[]"
  | JArray items =>
      "[" +:+ newline_indent indent (S level)
      +:+ join (item_separator indent +:+ newline_indent indent (S level))
            (map (iterencode indent (S level)) items)
      +:+ newline_indent indent level +:+ "]"
  | JObject [] => "{}"
  | JObject fields =>
      "{" +:+ newline_indent indent (S level)
      +:+ join (item_separator indent +:+ newline_indent indent (S level))
            (map (fun kv : string * json =>
                    let (k, v) := kv in
                    encode_basestring_ascii k +:+ key_separator
                    +:+ iterencode indent (S level) v) fields)
      +:+ newline_indent indent level +:+ "}"
  end.

(** [json.dumps(o, indent=indent)] *)
Definition json_dumps (indent : option nat) (o : json) : string :=
  iterencode indent 0 o.

End Encoder.

(** ** The outside world *)

(** What running an external command can come to: the program could not
    be started ([Popen] raises an [OSError]), or it ran to its end with a
    return code and the bytes it wrote on its standard output and on its
    standard error, both captured. *)
Inductive process_outcome : Type :=
| NotStarted (msg : string)
| Exited (returncode : Z) (out err : list Byte.byte).

(** The world answers a command line with the outcome of running it in
    the directory above the script. *)
Definition world : Type := list string -> process_outcome.

(** [bytes.decode(encoding, errors)] in the encoding of the locale: the
    text, or the message of the [UnicodeDecodeError]. *)
Inductive decoded : Type :=
| Undecodable (msg : string)
| Decoded (text : string).

Definition cr : Ascii.ascii := Ascii.ascii_of_nat 13.
Definition lf : Ascii.ascii := Ascii.ascii_of_nat 10.

(** [text.replace("\r\n", "\n")] *)
Fixpoint replace_crlf (text : string) : string :=
  match text with
  | EmptyString => EmptyString
  | String c rest =>
      match rest with
      | String c' rest' =>
          if Ascii.eqb c cr && Ascii.eqb c' lf
          then String lf (replace_crlf rest')
          else String c (replace_crlf rest)
      | EmptyString => String c EmptyString
      end
  end.

(** [text.replace("\r", "\n")] *)
Fixpoint replace_cr (text : string) : string :=
  match text with
  | EmptyString => EmptyString
  | String c rest =>
      String (if Ascii.eqb c cr then lf else c) (replace_cr rest)
  end.

(** The second half of [Popen._translate_newlines]. *)
Definition translate_newlines (text : string) : string :=
  replace_cr (replace_crlf text).

(** What [json.loads] raises on a [str]: a [JSONDecodeError] on a text
    that is not JSON, a plain [ValueError] on an integer with more
    digits than the interpreter converts, a [RecursionError] on a
    nesting deeper than it follows. *)
Inductive loads_failure : Type :=
| NotJSON (msg : string)
| IntTooLong (msg : string)
| TooDeep (msg : string).

(** ** The string formatter of the serializer *)

(** From here on a [string] stands for a Python [str] whose characters
    are below U+0100, the character [c] being the code point
    [N_of_ascii c]. *)

Definition dquote : Ascii.ascii := Ascii.ascii_of_nat 34.
Definition backslash : Ascii.ascii := Ascii.ascii_of_nat 92.
Definition quote_text : string := String dquote EmptyString.

(** A hexadecimal digit of ['{0:04x}'.format(n)]. *)
Definition hex_char (n : N) : Ascii.ascii :=
  if (n <? 10)%N then Ascii.ascii_of_N (48 + n) else Ascii.ascii_of_N (87 + n).

(** [replace(match)] of [py_encode_basestring_ascii]: the entry of
    [ESCAPE_DCT] where there is one, the character itself from the
    space to the tilde, and [\uXXXX] otherwise. *)
Definition escape_char (c : Ascii.ascii) : string :=
  let n := Ascii.N_of_ascii c in
  if Ascii.eqb c backslash then String backslash (String backslash "")
  else if Ascii.eqb c dquote then String backslash (String dquote "")
  else if (n =? 8)%N then String backslash "b"
  else if (n =? 12)%N then String backslash "f"
  else if (n =? 10)%N then String backslash "n"
  else if (n =? 13)%N then String backslash "r"
  else if (n =? 9)%N then String backslash "t"
  else if (32 <=? n)%N && (n <=? 126)%N then String c ""
  else String backslash
         (String "u"%char
            (String "0"%char
               (String "0"%char
                  (String (hex_char (n / 16))
                     (String (hex_char (n mod 16)) ""))))).

Fixpoint escape (text : string) : string :=
  match text with
  | EmptyString => EmptyString
  | String c rest => escape_char c +:+ escape rest
  end.

(** [py_encode_basestring_ascii], the default [_encoder] of
    [json.dumps]. *)
Definition py_encode_basestring_ascii (text : string) : string :=
  quote_text +:+ escape text +:+ quote_text.

(** ** The parser *)

(** [json.loads] belongs to Python's standard library as well.  Its
    scanner ([json.scanner], [json.decoder]) is written out over the
    text that is left to read.  An outcome is a value, an exception of
    [json.loads], or no answer: the text names a character above
    U+00FF, which a [string] cannot hold. *)
Inductive outcome (A : Type) : Type :=
| Got (a : A)
| Fails (failure : loads_failure)
| NoAnswer.
Arguments Got {A} a.
Arguments Fails {A} failure.
Arguments NoAnswer {A}.

Definition and_then {A B} (o : outcome A) (k : A -> outcome B) : outcome B :=
  match o with
  | Got a => k a
  | Fails failure => Fails failure
  | NoAnswer => NoAnswer
  end.

(** [WHITESPACE]: space, tab, line feed, carriage return. *)
Definition is_ws (c : Ascii.ascii) : bool :=
  let n := Ascii.N_of_ascii c in
  (n =? 32)%N || (n =? 9)%N || (n =? 10)%N || (n =? 13)%N.

Fixpoint skip_ws (text : string) : string :=
  match text with
  | EmptyString => EmptyString
  | String c rest => if is_ws c then skip_ws rest else text
  end.

(** [text[len(prefix):]] when [text.startswith(prefix)]. *)
Fixpoint strip_prefix (prefix text : string) : option string :=
  match prefix with
  | EmptyString => Some text
  | String p prefix' =>
      match text with
      | EmptyString => None
      | String c text' =>
          if Ascii.eqb p c then strip_prefix prefix' text' else None
      end
  end.

Definition is_digit (c : Ascii.ascii) : bool :=
  let n := Ascii.N_of_ascii c in (48 <=? n)%N && (n <=? 57)%N.

(** The value of a hexadecimal digit, of either case. *)
Definition hex_value (c : Ascii.ascii) : option N :=
  let n := Ascii.N_of_ascii c in
  if is_digit c then Some (n - 48)%N
  else if (97 <=? n)%N && (n <=? 102)%N then Some (n - 87)%N
  else if (65 <=? n)%N && (n <=? 70)%N then Some (n - 55)%N
  else None.

Definition hex4 (h1 h2 h3 h4 : Ascii.ascii) : option N :=
  match hex_value h1, hex_value h2, hex_value h3, hex_value h4 with
  | Some a, Some b, Some c, Some d => Some (((a * 16 + b) * 16 + c) * 16 + d)%N
  | _, _, _, _ => None
  end.

(** [BACKSLASH]: the characters that may follow a backslash, [u]
    apart. *)
Definition unescape (c : Ascii.ascii) : option Ascii.ascii :=
  if Ascii.eqb c dquote then Some dquote
  else if Ascii.eqb c backslash then Some backslash
  else if Ascii.eqb c "/"%char then Some "/"%char
  else if Ascii.eqb c "b"%char then Some (Ascii.ascii_of_nat 8)
  else if Ascii.eqb c "f"%char then Some (Ascii.ascii_of_nat 12)
  else if Ascii.eqb c "n"%char then Some (Ascii.ascii_of_nat 10)
  else if Ascii.eqb c "r"%char then Some (Ascii.ascii_of_nat 13)
  else if Ascii.eqb c "t"%char then Some (Ascii.ascii_of_nat 9)
  else None.

Definition unterminated : loads_failure :=
  NotJSON "Unterminated string starting at".

Definition put {A} (c : Ascii.ascii) (o : outcome (string * A))
  : outcome (string * A) :=
  and_then o (fun sr => Got (String c (fst sr), snd sr)).

(** [scanstring(s, end)] in strict mode, as the C scanner does it:
    [text] starts after the opening quote; the result is the string
    and the text after the closing quote. *)
Fixpoint scanstring (text : string) : outcome (string * string) :=
  match text with
  | EmptyString => Fails unterminated
  | String c rest =>
      if Ascii.eqb c dquote then Got (EmptyString, rest)
      else if Ascii.eqb c backslash then
        match rest with
        | EmptyString => Fails unterminated
        | String e rest' =>
            if Ascii.eqb e "u"%char then
              match rest' with
              | String h1 (String h2 (String h3 (String h4 rest''))) =>
                  match hex4 h1 h2 h3 h4 with
                  | Some n =>
                      if (n <? 256)%N
                      then put (Ascii.ascii_of_N n) (scanstring rest'')
                      else NoAnswer
                  | None => Fails (NotJSON "Invalid \uXXXX escape")
                  end
              | _ => Fails (NotJSON "Invalid \uXXXX escape")
              end
            else
              match unescape e with
              | Some ch => put ch (scanstring rest')
              | None => Fails (NotJSON "Invalid \escape")
              end
        end
      else if (Ascii.N_of_ascii c <? 32)%N
      then Fails (NotJSON "Invalid control character at")
      else put c (scanstring rest)
  end.

(** The longest run of digits at the head of [text], and what
    follows. *)
Fixpoint span_digits (text : string) : string * string :=
  match text with
  | EmptyString => (EmptyString, EmptyString)
  | String c rest =>
      if is_digit c
      then let (digits, after) := span_digits rest in (String c digits, after)
      else (EmptyString, text)
  end.

(** A match of [NUMBER_RE]: the three groups and the text after. *)
Record number_match : Type := mkNumber {
  integer : string;
  frac : string;
  exponent : string;
  after_number : string
}.

(** The first group of [NUMBER_RE]: a minus or none, then a lone [0]
    or a run of digits that starts with none; and the text after. *)
Definition match_integer (text : string) : option (string * string) :=
  let (sign, unsigned) :=
    match text with
    | String c rest => if Ascii.eqb c "-"%char then ("-", rest) else ("", text)
    | EmptyString => ("", text)
    end in
  match unsigned with
  | String c rest =>
      if Ascii.eqb c "0"%char then Some (sign +:+ "0", rest)
      else if is_digit c
      then let (digits, after) := span_digits unsigned in
           Some (sign +:+ digits, after)
      else None
  | EmptyString => None
  end.

(** The second group: a point and at least one digit, or nothing. *)
Definition match_frac (text : string) : string * string :=
  match text with
  | String c rest =>
      if Ascii.eqb c "."%char
      then let (digits, after) := span_digits rest in
           match digits with
           | EmptyString => ("", text)
           | _ => ("." +:+ digits, after)
           end
      else ("", text)
  | EmptyString => ("", text)
  end.

(** The third group: [e] or [E], a sign or none, and at least one
    digit, or nothing. *)
Definition match_exponent (text : string) : string * string :=
  match text with
  | String c rest =>
      if Ascii.eqb c "e"%char || Ascii.eqb c "E"%char
      then
        let (sign, unsigned) :=
          match rest with
          | String s rest' =>
              if Ascii.eqb s "-"%char || Ascii.eqb s "+"%char
              then (String s "", rest') else ("", rest)
          | EmptyString => ("", rest)
          end in
        let (digits, after) := span_digits unsigned in
        match digits with
        | EmptyString => ("", text)
        | _ => (String c "" +:+ sign +:+ digits, after)
        end
      else ("", text)
  | EmptyString => ("", text)
  end.

Definition match_number (text : string) : option number_match :=
  match match_integer text with
  | Some (int_part, after_int) =>
      let (frac_part, after_frac) := match_frac after_int in
      let (exp_part, after_exp) := match_exponent after_frac in
      Some (mkNumber int_part frac_part exp_part after_exp)
  | None => None
  end.

(** The value of a run of decimal digits. *)
Fixpoint digits_value (acc : N) (digits : string) : N :=
  match digits with
  | EmptyString => acc
  | String c rest => digits_value (acc * 10 + (Ascii.N_of_ascii c - 48))%N rest
  end.

(** [dict(pairs)]: a later pair of the same key replaces the value
    where the key stands. *)
Fixpoint dict_set (key : string) (v : json) (fields : list (string * json))
  : list (string * json) :=
  match fields with
  | [] => [(key, v)]
  | (k, w) :: rest =>
      if String.eqb key k then (k, v) :: rest
      else (k, w) :: dict_set key v rest
  end.

Definition dict_of_pairs (pairs : list (string * json))
  : list (string * json) :=
  fold_left (fun fields kv => dict_set (fst kv) (snd kv) fields) pairs [].

Definition expecting_value : loads_failure := NotJSON "Expecting value".
Definition expecting_comma : loads_failure :=
  NotJSON "Expecting ',' delimiter".
Definition expecting_colon : loads_failure :=
  NotJSON "Expecting ':' delimiter".
Definition expecting_name : loads_failure :=
  NotJSON "Expecting property name enclosed in double quotes".
Definition too_deep : loads_failure :=
  TooDeep "maximum recursion depth exceeded while decoding a JSON document".
Definition too_long : loads_failure :=
  IntTooLong "Exceeds the limit for integer string conversion".

Section Decoder.

(** [float(text)] on a number with a fraction or an exponent. *)
Variable float_of_string : string -> float.

(** [sys.get_int_max_str_digits()]; [0] stands for no limit. *)
Variable max_digits : nat.

(** [int(text)] on a match of the first group of [NUMBER_RE]. *)
Definition parse_int (text : string) : outcome json :=
  let (negative, digits) :=
    match text with
    | String c rest =>
        if Ascii.eqb c "-"%char then (true, rest) else (false, text)
    | EmptyString => (false, text)
    end in
  if negb (max_digits =? 0)%nat && (max_digits <? String.length digits)%nat
  then Fails too_long
  else
    let n := Z.of_N (digits_value 0 digits) in
    Got (JInt (if negative then - n else n)).

Definition number_value (m : number_match) : outcome (json * string) :=
  match frac m, exponent m with
  | EmptyString, EmptyString =>
      and_then (parse_int (integer m)) (fun v => Got (v, after_number m))
  | _, _ =>
      Got (JFloat (float_of_string (integer m +:+ frac m +:+ exponent m)),
           after_number m)
  end.

(** What [_scan_once] does once the text starts neither a string, nor
    an object, nor an array. *)
Definition scan_atom (text : string) : outcome (json * string) :=
  match strip_prefix "null" text with
  | Some rest => Got (JNull, rest)
  | None =>
  match strip_prefix "true" text with
  | Some rest => Got (JBool true, rest)
  | None =>
  match strip_prefix "false" text with
  | Some rest => Got (JBool false, rest)
  | None =>
  match match_number text with
  | Some m => number_value m
  | None =>
  match strip_prefix "NaN" text with
  | Some rest => Got (JFloat PrimFloat.nan, rest)
  | None =>
  match strip_prefix "Infinity" text with
  | Some rest => Got (JFloat PrimFloat.infinity, rest)
  | None =>
  match strip_prefix "-Infinity" text with
  | Some rest => Got (JFloat PrimFloat.neg_infinity, rest)
  | None => Fails expecting_value
  end end end end end end end.

(** [_scan_once], [JSONArray] and [JSONObject].  [depth] is the
    nesting the interpreter still follows; [fuel] bounds the calls and
    is given by the length of the text. *)
Fixpoint scan_once (fuel depth : nat) (text : string)
  : outcome (json * string) :=
  match fuel with
  | O => NoAnswer
  | S fuel' =>
      match text with
      | EmptyString => Fails expecting_value
      | String c rest =>
          if Ascii.eqb c dquote then
            and_then (scanstring rest)
              (fun sr => Got (JString (fst sr), snd sr))
          else if Ascii.eqb c "{"%char then
            match depth with
            | O => Fails too_deep
            | S depth' =>
                match skip_ws rest with
                | String c' rest' =>
                    if Ascii.eqb c' "}"%char then Got (JObject [], rest')
                    else if Ascii.eqb c' dquote then
                      and_then (scan_pairs fuel' depth' rest')
                        (fun pr => Got (JObject (dict_of_pairs (fst pr)),
                                        snd pr))
                    else Fails expecting_name
                | EmptyString => Fails expecting_name
                end
            end
          else if Ascii.eqb c "["%char then
            match depth with
            | O => Fails too_deep
            | S depth' =>
                match skip_ws rest with
                | String c' rest' =>
                    if Ascii.eqb c' "]"%char then Got (JArray [], rest')
                    else
                      and_then (scan_items fuel' depth' (skip_ws rest))
                        (fun ir => Got (JArray (fst ir), snd ir))
                | EmptyString => Fails expecting_value
                end
            end
          else scan_atom text
      end
  end

(** The loop of [JSONArray]: [text] starts at a value. *)
with scan_items (fuel depth : nat) (text : string)
  : outcome (list json * string) :=
  match fuel with
  | O => NoAnswer
  | S fuel' =>
      and_then (scan_once fuel' depth text)
        (fun vr =>
           match skip_ws (snd vr) with
           | String c rest =>
               if Ascii.eqb c "]"%char then Got ([fst vr], rest)
               else if Ascii.eqb c ","%char then
                 and_then (scan_items fuel' depth (skip_ws rest))
                   (fun ir => Got (fst vr :: fst ir, snd ir))
               else Fails expecting_comma
           | EmptyString => Fails expecting_comma
           end)
  end

(** The loop of [JSONObject]: [text] starts after the opening quote of
    a key. *)
with scan_pairs (fuel depth : nat) (text : string)
  : outcome (list (string * json) * string) :=
  match fuel with
  | O => NoAnswer
  | S fuel' =>
      and_then (scanstring text)
        (fun kr =>
           match skip_ws (snd kr) with
           | String c rest =>
               if Ascii.eqb c ":"%char then
                 and_then (scan_once fuel' depth (skip_ws rest))
                   (fun vr =>
                      match skip_ws (snd vr) with
                      | String c' rest' =>
                          if Ascii.eqb c' "}"%char
                          then Got ([(fst kr, fst vr)], rest')
                          else if Ascii.eqb c' ","%char then
                            match skip_ws rest' with
                            | String q rest'' =>
                                if Ascii.eqb q dquote then
                                  and_then (scan_pairs fuel' depth rest'')
                                    (fun pr =>
                                       Got ((fst kr, fst vr) :: fst pr,
                                            snd pr))
                                else Fails expecting_name
                            | EmptyString => Fails expecting_name
                            end
                          else Fails expecting_comma
                      | EmptyString => Fails expecting_comma
                      end)
               else Fails expecting_colon
           | EmptyString => Fails expecting_colon
           end)
  end.

(** [json.loads(text)]: leading white space, one value, trailing white
    space, and nothing else. *)
Definition json_parse (depth : nat) (text : string) : outcome json :=
  and_then (scan_once (S (String.length text)) depth (skip_ws text))
    (fun vr =>
       match skip_ws (snd vr) with
       | EmptyString => Got (fst vr)
       | String _ _ => Fails (NotJSON "Extra data")
       end).

End Decoder.

(** The process exit status the interpreter derives from the way the
    script ends: [0] when it runs to its end, the argument of
    [sys.exit], and [1] for any other exception that nobody caught. *)
Definition exit_status {A} (r : result A) : Z :=
  match r with
  | Ok _ => 0
  | Raise (SystemExit code) => code
  | Raise _ => 1
  end.

(** Control leaving a [try] block: by a [return], or by falling through
    to the statements after it. *)
Inductive flow (R L : Type) : Type :=
| Returned (r : R)
| Through (locals : L).
Arguments Returned {R L} r.
Arguments Through {R L} locals.

(** ** The script *)

Section Script.

(** [bytes.decode] in the encoding of the locale. *)
Variable decode : list Byte.byte -> decoded.

(** [json.loads]: the parsed value, or what it raises. *)
Variable json_loads : string -> loads_failure + json.

(** [str(e)], the text an f-string puts in place of [{e}]. *)
Variable exn_str : exn -> string.

Variable encode_basestring_ascii : string -> string.
Variable float_repr : float -> string.

(** [Popen._translate_newlines]: a captured stream, in text mode. *)
Definition decode_stream (data : list Byte.byte) : M string :=
  match decode data with
  | Undecodable msg => raise (UnicodeDecodeError msg)
  | Decoded text => ret (translate_newlines text)
  end.

(** [subprocess.run(cmd, cwd=..., capture_output=True, text=True,
    check=True).stdout]: [communicate] decodes what was captured, the
    output and then the errors, before [check=True] turns a non-zero
    return code into [CalledProcessError]. *)
Definition subprocess_run (w : world) (cmd : list string) : M string :=
  match w cmd with
  | NotStarted msg => raise (OSError msg)
  | Exited returncode out err =>
      stdout_text <- decode_stream out ;;;
      stderr_text <- decode_stream err ;;;
      if returncode =? 0 then ret stdout_text
      else raise (CalledProcessError returncode)
  end.

Definition loads (text : string) : M json :=
  match json_loads text with
  | inl (NotJSON msg) => raise (JSONDecodeError msg)
  | inl (IntTooLong msg) => raise (ValueError msg)
  | inl (TooDeep msg) => raise (RecursionError msg)
  | inr v => ret v
  end.

Definition terraform_cmd : list string := ["terraform"; "output"; "-json"].

Definition get_terraform_output (w : world) : M json :=
  try_except
    (out <- subprocess_run w terraform_cmd ;;;
     loads out)
    (fun e =>
       match e with
       | CalledProcessError _ =>
           Some (run print_err ("Error running terraform output: "
                                +:+ exn_str e) ;;;
                 ret (JObject []))
       | JSONDecodeError _ =>
           Some (run print_err ("Error parsing terraform output: "
                                +:+ exn_str e) ;;;
                 ret (JObject []))
       | _ => None
       end).

(** The part of [generate_inventory] that follows the call of
    [get_terraform_output]: the [try] block and the construction of
    the inventory, as a function of the parsed output. *)
Definition build (terraform_output : json) : M json :=
  step <- try_except
    (r_ip <- py_get terraform_output "ec2_public_ip" (JObject []) ;;;
     ec2_ip <- py_get r_ip "value" (JString "") ;;;
     r_domain <- py_get terraform_output "vault_domain" (JObject []) ;;;
     vault_domain <- py_get r_domain "value" (JString "vault.example.com") ;;;
     let vault_version := JString "1.15.6" in
     let vault_token := JString "vault-dev-root-token" in
     if py_not ec2_ip then
       run print_err "Error: Could not get EC2 IP from terraform output" ;;;
       ret (Returned empty_inventory)
     else
       ret (Through (ec2_ip, vault_domain, vault_version, vault_token)))
    (fun e =>
       match e with
       | KeyError _ =>
           Some (run print_err ("Error: Missing key in terraform output: "
                                +:+ exn_str e) ;;;
                 ret (Returned empty_inventory))
       | _ => None
       end) ;;;
  match step with
  | Returned inventory => ret inventory
  | Through (ec2_ip, vault_domain, vault_version, vault_token) =>
      ret (inventory_of ec2_ip vault_domain vault_version vault_token)
  end.

Definition generate_inventory (w : world) : M json :=
  terraform_output <- get_terraform_output w ;;;
  build terraform_output.

Definition usage : string :=
  "Usage: dynamic_inventory.py --list | --host <hostname>".

(** [argv] is [sys.argv]: the script's name, then the arguments. *)
Definition main (argv : list string) (w : world) : M unit :=
  if (length argv =? 2)%nat && bool_decide (argv !! 1%nat = Some "--list")
  then
    inventory <- generate_inventory w ;;;
    print (json_dumps encode_basestring_ascii float_repr (Some 2%nat) inventory)
  else if (length argv =? 3)%nat && bool_decide (argv !! 1%nat = Some "--host")
  then
    print (json_dumps encode_basestring_ascii float_repr None (JObject []))
  else
    run print_err usage ;;;
    raise (SystemExit 1).

End Script.

(** ** Reading documents *)

(** [o[key]] read as an option: the entry of a dict, nothing elsewhere. *)
Definition get (key : string) (o : json) : option json :=
  match o with
  | JObject fields => assoc key fields
  | _ => None
  end.

(** [o[k1][k2]...], written [k1.k2...] in prose. *)
Fixpoint get_path (path : list string) (o : json) : option json :=
  match path with
  | [] => Some o
  | key :: rest =>
      match get key o with
      | Some v => get_path rest v
      | None => None
      end
  end.

(** The groups of an inventory document: every top-level entry but the
    reserved [_meta]. *)
Definition groups (doc : json) : list (string * json) :=
  match doc with
  | JObject fields =>
      List.filter (fun kv => negb (String.eqb (fst kv) "_meta")) fields
  | _ => []
  end.

Definition group_keys (doc : json) : list string := keys (groups doc).

Definition hosts (group : json) : list json :=
  match get "hosts" group with
  | Some (JArray items) => items
  | _ => []
  end.

Definition hostvars (doc : json) : list (string * json) :=
  match get_path ["_meta"; "hostvars"] doc with
  | Some (JObject fields) => fields
  | _ => []
  end.

Definition host_has_vars (doc : json) (host : json) : bool :=
  match host with
  | JString name => existsb (String.eqb name) (keys (hostvars doc))
  | _ => false
  end.

(** The invariant of the inventory document: each host that a group
    lists has an entry under [_meta.hostvars]. *)
Definition inventory_invariant (doc : json) : bool :=
  forallb (fun group => forallb (host_has_vars doc) (hosts (snd group)))
    (groups doc).

(** ** The provisioning output *)

Definition is_record (v : json) : bool :=
  match v with
  | JObject _ => true
  | _ => false
  end.

(** The data model of the provisioning output: a mapping from output
    names to records. *)
Definition provisioning_output (fields : list (string * json)) : bool :=
  forallb (fun kv => is_record (snd kv)) fields.

(** [key -> .value]: the [value] field of the record at [key], when
    both are there. *)
Definition output_value (key : string) (fields : list (string * json))
  : option json :=
  match assoc key fields with
  | Some record => get "value" record
  | None => None
  end.

Definition default_domain : json := JString "vault.example.com".

(** The two settings the script fixes itself. *)
Definition vault_version : json := JString "1.15.6".
Definition vault_token : json := JString "vault-dev-root-token".

(** The value the script reads under [key], [default] standing in for a
    missing entry or a missing [value] field. *)
Definition entry_value (key : string) (default : json)
    (fields : list (string * json)) : json :=
  match output_value key fields with
  | Some v => v
  | None => default
  end.

(** Every group of [doc] carries [domain] as its [vault_domain]. *)
Definition uses_domain (doc : json) (domain : json) : Prop :=
  forall name group,
    In (name, group) (groups doc) ->
    get_path ["vars"; "vault_domain"] group = Some domain.

(** What the reader does to the streams when it reports [line]. *)
Definition reported (line : string) (s : io) : io :=
  mkIO (stdout s) (stderr s +:+ line +:+ newline).

(** What a successful [print] does to the streams. *)
Definition printed (text : string) (s : io) : io :=
  mkIO (stdout s +:+ text +:+ newline) (stderr s).

(** The streams after an optional report. *)
Definition after (report : option string) (s : io) : io :=
  match report with
  | Some line => reported line s
  | None => s
  end.

Definition no_ip_line : string :=
  "Error: Could not get EC2 IP from terraform output".

(** ** A sample run *)

(** Concrete stand-ins for the library functions, and the scenario of
    the specification, to run the script on. *)
Definition quote : string := String (Ascii.ascii_of_nat 34) EmptyString.

Definition sample_encode (text : string) : string :=
  quote +:+ text +:+ quote.

Definition sample_float_repr (f : float) : string :=
  if PrimFloat.eqb f PrimFloat.zero then "0.0" else "1.0".

Definition sample_exn_str (e : exn) : string :=
  match e with
  | CalledProcessError returncode =>
      "Command '['terraform', 'output', '-json']' returned non-zero "
      +:+ "exit status " +:+ pretty returncode +:+ "."
  | JSONDecodeError msg => msg
  | KeyError key => "'" +:+ key +:+ "'"
  | AttributeError msg => msg
  | OSError msg => msg
  | SystemExit code => pretty code
  | UnicodeDecodeError msg => msg
  | ValueError msg => msg
  | RecursionError msg => msg
  end.

Definition scenario : list (string * json) :=
  [("ec2_public_ip", JObject [("value", JString "203.0.113.10")]);
   ("vault_domain", JObject [("value", JString "vault.test")])].

(** A provisioning output without the address, and the scenario with
    one more output. *)
Definition no_address : list (string * json) :=
  [("vault_domain", JObject [("value", JString "vault.test")])].

Definition scenario_and_more : list (string * json) :=
  ("instance_id", JObject [("value", JString "i-0abc")]) :: scenario.

Definition scenario_text : string := "<the scenario, as printed by terraform>".

(** The bytes of a text of one-byte characters. *)
Definition bytes_of (text : string) : list Byte.byte :=
  String.list_byte_of_string text.

(** The ASCII codec: a byte above 127 cannot be decoded. *)
Definition is_ascii_byte (b : Byte.byte) : bool :=
  (Strings.Byte.to_N b <? 128)%N.

Definition undecodable_message : string :=
  "'ascii' codec can't decode byte: ordinal not in range(128)".

Definition sample_decode (data : list Byte.byte) : decoded :=
  if forallb is_ascii_byte data
  then Decoded (String.string_of_list_byte data)
  else Undecodable undecodable_message.

(** A [json.loads] that meets an integer of too many digits. *)
Definition digits_message : string :=
  "Exceeds the limit (4300 digits) for integer string conversion".

Definition long_loads (text : string) : loads_failure + json :=
  inl (IntTooLong digits_message).

Definition sample_loads (text : string) : loads_failure + json :=
  if String.eqb text scenario_text then inr (JObject scenario)
  else inl (NotJSON "Expecting value: line 1 column 1 (char 0)").

Definition sample_world (cmd : list string) : process_outcome :=
  Exited 0 (bytes_of scenario_text) [].

Definition failing_world (cmd : list string) : process_outcome :=
  Exited 1 [] (bytes_of "Error: No configuration files").

(** A world whose command prints an output with a bare string where a
    record is expected. *)
Definition bare_text : string := "<an output with a bare address>".

Definition bare_loads (text : string) : loads_failure + json :=
  if String.eqb text bare_text
  then inr (JObject [("ec2_public_ip", JString "203.0.113.10")])
  else inl (NotJSON "Expecting value: line 1 column 1 (char 0)").

Definition bare_world (cmd : list string) : process_outcome :=
  Exited 0 (bytes_of bare_text) [].

(** A world whose command fails and prints bytes that are no text. *)
Definition undecodable_world (cmd : list string) : process_outcome :=
  Exited 1 [Byte.xff; Byte.xfe] [].

Definition fresh : io := mkIO "" "".

(** ** Shapes the builder accepts *)

(** The entry the builder reads under [key] is a record, or is not
    there. *)
Definition entry_ok (key : string) (fields : list (string * json)) : bool :=
  match assoc key fields with
  | Some v => is_record v
  | None => true
  end.

(** The parsed output is a mapping, and the two entries the builder
    reads are records where they are there; the other entries are
    free. *)
Definition shape_ok (out : json) : bool :=
  match out with
  | JObject fields =>
      entry_ok "ec2_public_ip" fields && entry_ok "vault_domain" fields
  | _ => false
  end.

(** The document the builder makes of a mapping of an accepted
    shape. *)
Definition built_from (fields : list (string * json)) : json :=
  let ec2_ip := entry_value "ec2_public_ip" (JString "") fields in
  let vault_domain := entry_value "vault_domain" default_domain fields in
  if truthy ec2_ip
  then inventory_of ec2_ip vault_domain vault_version vault_token
  else empty_inventory.

(** The document list mode prints, read off the return code of the
    command and the text of its output: the empty inventory after a
    failed command or a text that is not JSON, what the builder makes
    of a mapping of an accepted shape, and none where the script
    raises. *)
Definition listed_document (json_loads : string -> loads_failure + json)
    (returncode : Z) (text : string) : option json :=
  if returncode =? 0 then
    match json_loads text with
    | inl (NotJSON _) => Some empty_inventory
    | inl _ => None
    | inr (JObject fields) =>
        if shape_ok (JObject fields) then Some (built_from fields) else None
    | inr _ => None
    end
  else Some empty_inventory.

(** The exceptions of the reader that neither [except] clause names. *)
Definition passes_reader (e : exn) : bool :=
  match e with
  | OSError _ | UnicodeDecodeError _ | ValueError _ | RecursionError _ => true
  | _ => false
  end.

(** The streams after [lines] went to the error stream. *)
Definition appended (lines : string) (s : io) : io :=
  mkIO (stdout s) (stderr s +:+ lines).

(** The hosts that the groups of [doc] list, in order. *)
Definition listed_hosts (doc : json) : list json :=
  flat_map (fun group => hosts (snd group)) (groups doc).

Definition running_line (exn_str : exn -> string) (returncode : Z) : string :=
  "Error running terraform output: "
  +:+ exn_str (CalledProcessError returncode).

Definition parsing_line (exn_str : exn -> string) (msg : string) : string :=
  "Error parsing terraform output: " +:+ exn_str (JSONDecodeError msg).

(** More worlds to run the script in: one without the command, one
    whose command prints something that does not parse, and one whose
    output has more entries than the builder reads, one of them not a
    record. *)
Definition missing_world (cmd : list string) : process_outcome :=
  NotStarted "[Errno 2] No such file or directory: 'terraform'".

Definition garbled_world (cmd : list string) : process_outcome :=
  Exited 0 (bytes_of "Warning: no outputs found") [].

Definition scenario_with_bare_extra : list (string * json) :=
  ("region", JString "eu-west-1") :: scenario.

Definition list_argv : list string := ["dynamic_inventory.py"; "--list"].

(** The inventory of the scenario, and the scenario with an output
    that names one of the fixed settings. *)
Definition scenario_inventory : json :=
  inventory_of (JString "203.0.113.10") (JString "vault.test")
    vault_version vault_token.

Definition scenario_with_version : list (string * json) :=
  ("vault_version", JObject [("value", JString "9.9.9")]) :: scenario.

Definition bare_message : string := "'str' object has no attribute 'get'".

(** ** Values that come back from their printed text *)

(** An integer within the digits the interpreter converts. *)
Definition int_ok (max_digits : nat) (n : Z) : bool :=
  (max_digits =? 0)%nat
  || (String.length (pretty (Z.abs n)) <=? max_digits)%nat.

(** The values the round trip is stated for: no float, integers and
    nesting within the limits of the interpreter, and, as in every
    Python dict, no key twice. *)
Fixpoint json_ok (max_digits depth : nat) (v : json) {struct v} : bool :=
  match v with
  | JNull | JBool _ | JString _ => true
  | JInt n => int_ok max_digits n
  | JFloat _ => false
  | JArray items =>
      match depth with
      | O => false
      | S depth' => forallb (json_ok max_digits depth') items
      end
  | JObject fields =>
      match depth with
      | O => false
      | S depth' =>
          bool_decide (NoDup (keys fields))
          && forallb (fun kv => json_ok max_digits depth' (snd kv)) fields
      end
  end.

(** The calls the scanner makes on the text of a value. *)
Fixpoint weight (v : json) : nat :=
  match v with
  | JArray items => S (list_sum (map (fun item => S (weight item)) items))
  | JObject fields =>
      S (list_sum (map (fun kv => S (weight (snd kv))) fields))
  | _ => 1
  end.

(** A text that cannot carry on a number. *)
Definition delimited (text : string) : bool :=
  match text with
  | EmptyString => true
  | String c _ =>
      negb (is_digit c || Ascii.eqb c "."%char || Ascii.eqb c "e"%char
            || Ascii.eqb c "E"%char)
  end.

(** A text that starts a value: no white space, no closing bracket. *)
Definition head_ok (text : string) : bool :=
  match text with
  | EmptyString => false
  | String c _ => negb (is_ws c) && negb (Ascii.eqb c "]"%char)
  end.

(** A text of digits only. *)
Fixpoint all_digits (text : string) : bool :=
  match text with
  | EmptyString => true
  | String c rest => is_digit c && all_digits rest
  end.

Definition starts_with_digit (text : string) : bool :=
  match text with
  | String c _ => is_digit c
  | EmptyString => false
  end.

(** The characters an integer can start with. *)
Definition number_head (c : ascii) : bool := is_digit c || Ascii.eqb c "-"%char.

(** The text of one pair of an object. *)
Definition chunk_of (float_repr : float -> string) (indent : option nat)
    (level : nat) (kv : string * json) : string :=
  py_encode_basestring_ascii (fst kv) +:+ key_separator
  +:+ iterencode py_encode_basestring_ascii float_repr indent level (snd kv).

(** A value comes back from its text, whatever follows that cannot
    carry on a number. *)
Definition comes_back (float_of_string : string -> float)
    (float_repr : float -> string) (max_digits : nat) (v : json) : Prop :=
  forall indent level fuel depth rest,
    json_ok max_digits depth v = true ->
    (weight v <= fuel)%nat ->
    delimited rest = true ->
    scan_once float_of_string max_digits fuel depth
      (iterencode py_encode_basestring_ascii float_repr indent level v
       +:+ rest)
    = Got (v, rest).

(** Induction over [json] that reaches the items of an array and the
    values of an object. *)
Section JsonInduction.

Variable P : json -> Prop.
Hypothesis Hnull : P JNull.
Hypothesis Hbool : forall b, P (JBool b).
Hypothesis Hint : forall n, P (JInt n).
Hypothesis Hfloat : forall f, P (JFloat f).
Hypothesis Hstring : forall s, P (JString s).
Hypothesis Harray : forall items, Forall P items -> P (JArray items).
Hypothesis Hobject :
  forall fields, Forall (fun kv => P (snd kv)) fields -> P (JObject fields).

Fixpoint json_nested_ind (v : json) : P v :=
  match v with
  | JNull => Hnull
  | JBool b => Hbool b
  | JInt n => Hint n
  | JFloat f => Hfloat f
  | JString s => Hstring s
  | JArray items =>
      Harray items
        ((fix go (l : list json) : Forall P l :=
            match l with
            | [] => @List.Forall_nil _ P
            | x :: rest =>
                @List.Forall_cons _ P x rest (json_nested_ind x) (go rest)
            end) items)
  | JObject fields =>
      Hobject fields
        ((fix go (l : list (string * json))
            : Forall (fun kv => P (snd kv)) l :=
            match l with
            | [] => @List.Forall_nil _ _
            | kv :: rest =>
                @List.Forall_cons _ _ kv rest (json_nested_ind (snd kv))
                  (go rest)
            end) fields)
  end.

End JsonInduction.

(** [float(text)] on the two texts of the sample [repr]. *)
Definition sample_float_of_string (text : string) : float :=
  if String.eqb text "0.0" then PrimFloat.zero else PrimFloat.one.

(** * Properties *)

Lemma provisioning_output_assoc fields key v :
  provisioning_output fields = true ->
  assoc key fields = Some v ->
  exists record, v = JObject record.
Proof.
  unfold provisioning_output.
  induction fields as [|[k w] rest IH]; simpl; [discriminate|].
  intros Hall Hfind.
  apply andb_prop in Hall as [Hw Hrest].
  destruct (String.eqb key k).
  - injection Hfind as <-. destruct w; try discriminate. eauto.
  - auto.
Qed.

Section BuildFacts.

Variable exn_str : exn -> string.

(** On a provisioning output that fits the data model, the builder
    comes to one of its two [return] statements, and which one is
    decided by the truth value of the address. *)
Lemma build_spec fields s :
  provisioning_output fields = true ->
  build exn_str (JObject fields) s =
    let ec2_ip := entry_value "ec2_public_ip" (JString "") fields in
    let vault_domain := entry_value "vault_domain" default_domain fields in
    if truthy ec2_ip
    then (Ok (inventory_of ec2_ip vault_domain vault_version vault_token), s)
    else (Ok empty_inventory, reported no_ip_line s).
Proof.
  intros Hshape.
  unfold build, entry_value, output_value.
  unfold try_except, bind, py_get, ret, raise, py_not; simpl.
  destruct (assoc "ec2_public_ip" fields) as [r_ip|] eqn:Hip;
    [destruct (provisioning_output_assoc _ _ _ Hshape Hip) as [f_ip ->]|];
  (destruct (assoc "vault_domain" fields) as [r_dom|] eqn:Hdom;
    [destruct (provisioning_output_assoc _ _ _ Hshape Hdom) as [f_dom ->]|]);
  simpl;
  repeat match goal with
         | |- context [assoc "value" ?f] => destruct (assoc "value" f)
         end;
  simpl;
  repeat match goal with
         | |- context [truthy ?v] => destruct (truthy v)
         end;
  reflexivity.
Qed.

(** Whatever the parsed output is, the builder ends in one of three
    ways: the early [return] with its report, the final [return]
    with nothing written, or an [AttributeError] out of a [.get] on
    something that is not a dict.  The streams it starts from decide
    none of it. *)
Lemma build_outcomes out :
  (forall s, build exn_str out s = (Ok empty_inventory, reported no_ip_line s))
  \/ (exists ec2_ip vault_domain,
        truthy ec2_ip = true /\
        forall s, build exn_str out s =
          (Ok (inventory_of ec2_ip vault_domain vault_version vault_token), s))
  \/ (exists msg,
        forall s, build exn_str out s = (Raise (AttributeError msg), s)).
Proof.
  unfold build, try_except, bind, py_get, ret, raise, py_not.
  destruct out as [| | | | | |fields]; simpl;
    try (right; right; eexists; intro; reflexivity).
  destruct (assoc "ec2_public_ip" fields) as [[| | | | | |f_ip]|]; simpl;
    try (right; right; eexists; intro; reflexivity);
  (destruct (assoc "vault_domain" fields) as [[| | | | | |f_dom]|]; simpl;
    try (right; right; eexists; intro; reflexivity));
  repeat match goal with
         | |- context [assoc "value" ?f] => destruct (assoc "value" f); simpl
         end;
  repeat match goal with
         | |- context [truthy ?v] => destruct (truthy v) eqn:?; simpl
         end;
  first [ left; intro; reflexivity
        | right; left; eexists _, _; split; [eassumption|intro; reflexivity]
        | right; right; eexists; intro; reflexivity ].
Qed.

Lemma output_value_absent key fields :
  (assoc key fields = None
   \/ exists record, assoc key fields = Some (JObject record)
                     /\ assoc "value" record = None) ->
  output_value key fields = None.
Proof.
  unfold output_value. intros [->|(record & -> & Hnone)]; [reflexivity|].
  exact Hnone.
Qed.

(** C1: when the provisioning output holds a non-empty (true, for
    Python) [value] under [ec2_public_ip], the builder returns a
    document whose [_meta.hostvars.vault_server.ansible_host] is that
    very value, and writes nothing. *)
Theorem build_ansible_host fields v s :
  provisioning_output fields = true ->
  output_value "ec2_public_ip" fields = Some v ->
  truthy v = true ->
  exists doc,
    build exn_str (JObject fields) s = (Ok doc, s)
    /\ get_path ["_meta"; "hostvars"; "vault_server"; "ansible_host"] doc
       = Some v.
Proof.
  intros Hshape Hip Htrue.
  rewrite build_spec by assumption.
  unfold entry_value. rewrite Hip. simpl. rewrite Htrue.
  eexists; split; reflexivity.
Qed.

(** C2: when the [ec2_public_ip] entry is missing, or its record has
    no [value], or the value is empty (false, for Python), the builder
    reports it and returns the empty inventory: [_meta.hostvars] is the
    empty mapping and there is no group. *)
Theorem build_empty_inventory fields s :
  provisioning_output fields = true ->
  (assoc "ec2_public_ip" fields = None
   \/ (exists record, assoc "ec2_public_ip" fields = Some (JObject record)
                      /\ assoc "value" record = None)
   \/ (exists v, output_value "ec2_public_ip" fields = Some v
                 /\ truthy v = false)) ->
  exists doc,
    build exn_str (JObject fields) s = (Ok doc, reported no_ip_line s)
    /\ doc = empty_inventory
    /\ get_path ["_meta"; "hostvars"] doc = Some (JObject [])
    /\ group_keys doc = [].
Proof.
  intros Hshape Hip.
  exists empty_inventory. repeat split.
  rewrite build_spec by assumption.
  unfold entry_value.
  destruct Hip as [Habs|[Habs|(v & Hv & Hfalse)]].
  - rewrite output_value_absent by auto. reflexivity.
  - rewrite output_value_absent by auto. reflexivity.
  - rewrite Hv. simpl. rewrite Hfalse. reflexivity.
Qed.

Lemma uses_domain_inventory ec2_ip domain version token :
  uses_domain (inventory_of ec2_ip domain version token) domain.
Proof.
  intros name group [Heq|[]]. injection Heq as <- <-. reflexivity.
Qed.

Lemma uses_domain_empty domain : uses_domain empty_inventory domain.
Proof. intros name group []. Qed.

(** C6: the builder returns a document in which every group carries,
    as [vault_domain], the fixed default when the provisioning output
    has no [vault_domain] value, and the provided value as it is when
    it has one; with a non-empty address that document does have the
    group [vault_servers], whose [vars.vault_domain] is that domain. *)
Theorem build_vault_domain fields s :
  provisioning_output fields = true ->
  exists doc s',
    build exn_str (JObject fields) s = (Ok doc, s')
    /\ (output_value "vault_domain" fields = None ->
        uses_domain doc (JString "vault.example.com"))
    /\ (forall v, output_value "vault_domain" fields = Some v ->
        uses_domain doc v)
    /\ (forall ec2_ip,
          output_value "ec2_public_ip" fields = Some ec2_ip ->
          truthy ec2_ip = true ->
          get_path ["vault_servers"; "vars"; "vault_domain"] doc
          = Some (entry_value "vault_domain" (JString "vault.example.com")
                    fields)).
Proof.
  intros Hshape.
  rewrite build_spec by assumption. cbv zeta.
  destruct (truthy (entry_value "ec2_public_ip" (JString "") fields)) eqn:Hip.
  - eexists _, _; split; [reflexivity|].
    unfold entry_value at 2 3 4, default_domain. repeat split.
    + intros ->. apply uses_domain_inventory.
    + intros v ->. apply uses_domain_inventory.
  - eexists _, _; split; [reflexivity|]. repeat split.
    + intros _. apply uses_domain_empty.
    + intros v _. apply uses_domain_empty.
    + intros ec2_ip Hv Htrue. unfold entry_value in Hip.
      rewrite Hv in Hip. congruence.
Qed.

Lemma inventory_invariant_inventory ec2_ip domain version token :
  inventory_invariant (inventory_of ec2_ip domain version token) = true.
Proof. reflexivity. Qed.

(** Whenever the builder returns a document, on any parsed value, the
    document keeps the invariant. *)
Lemma build_invariant_any out s doc s' :
  build exn_str out s = (Ok doc, s') ->
  inventory_invariant doc = true.
Proof.
  destruct (build_outcomes out) as [H|[(ip & dom & _ & H)|(msg & H)]];
    rewrite H; intros [= <- _]; reflexivity.
Qed.

(** On a provisioning output of the data model the builder returns,
    leaves the standard output alone, and keeps the invariant. *)
Lemma build_hosts_shape fields s :
  provisioning_output fields = true ->
  exists doc s',
    build exn_str (JObject fields) s = (Ok doc, s')
    /\ stdout s' = stdout s
    /\ inventory_invariant doc = true.
Proof.
  intros Hshape.
  rewrite build_spec by assumption. cbv zeta.
  destruct (truthy _); eexists _, _; (split; [reflexivity|]); split;
    reflexivity.
Qed.

(** C7: on every provisioning output the builder returns a document,
    the full one or the empty inventory, and in it each host listed
    by a group has an entry under [_meta.hostvars]. *)
Theorem build_hosts_have_vars fields s :
  provisioning_output fields = true ->
  exists doc s',
    build exn_str (JObject fields) s = (Ok doc, s')
    /\ (doc = empty_inventory
        \/ exists ec2_ip vault_domain,
             doc = inventory_of ec2_ip vault_domain vault_version vault_token)
    /\ inventory_invariant doc = true.
Proof.
  intros Hshape.
  rewrite build_spec by assumption. cbv zeta.
  destruct (truthy _); eexists _, _; (split; [reflexivity|]); split;
    try reflexivity; eauto.
Qed.

(** C5: an entry of the provisioning output that is not a record makes
    the builder raise: the [AttributeError] of the failed [.get] is not
    a [KeyError], the [except] clause lets it through, and no empty
    inventory is returned. *)
Theorem build_raises_on_non_record s :
  build exn_str (JObject [("ec2_public_ip", JString "203.0.113.10")]) s
  = (Raise (AttributeError "'str' object has no attribute 'get'"), s).
Proof. reflexivity. Qed.

(** The same for any entry under [ec2_public_ip] that is not a record,
    whatever else the provisioning output holds. *)
Lemma build_raises_on_non_record_entry fields v s :
  assoc "ec2_public_ip" fields = Some v ->
  is_record v = false ->
  build exn_str (JObject fields) s
  = (Raise (AttributeError
              ("'" +:+ type_name v +:+ "' object has no attribute 'get'")),
     s).
Proof.
  intros Hip Hshape.
  unfold build, try_except, bind, py_get, ret, raise; simpl.
  rewrite Hip. destruct v; try discriminate; reflexivity.
Qed.

(** The [except KeyError] clause is never entered: its line is never
    written, whatever the parsed output. *)
Lemma build_never_reports_missing_key out s :
  snd (build exn_str out s) = s
  \/ snd (build exn_str out s) = reported no_ip_line s.
Proof.
  destruct (build_outcomes out) as [H|[(ip & dom & _ & H)|(msg & H)]];
    rewrite H; auto.
Qed.

Lemma build_deterministic_streams out s1 s2 :
  fst (build exn_str out s1) = fst (build exn_str out s2).
Proof.
  destruct (build_outcomes out) as [H|[(ip & dom & _ & H)|(msg & H)]];
    rewrite !H; reflexivity.
Qed.

(** C9: the builder is deterministic and keeps nothing between calls:
    the outcome does not depend on the streams it starts from, and a
    second call, made after the first, ends as the first did. *)
Theorem build_deterministic out s1 s2 :
  fst (build exn_str out s1) = fst (build exn_str out s2)
  /\ fst (build exn_str out (snd (build exn_str out s1)))
     = fst (build exn_str out s1).
Proof.
  destruct (build_outcomes out) as [H|[(ip & dom & _ & H)|(msg & H)]];
    rewrite !H; split; reflexivity.
Qed.

(** C10: two provisioning outputs with the same entries at
    [ec2_public_ip] and [vault_domain] are built into the same
    document, with the same text written: no other entry is read. *)
Theorem build_reads_two_entries fields1 fields2 s :
  assoc "ec2_public_ip" fields1 = assoc "ec2_public_ip" fields2 ->
  assoc "vault_domain" fields1 = assoc "vault_domain" fields2 ->
  build exn_str (JObject fields1) s = build exn_str (JObject fields2) s.
Proof.
  intros Hip Hdomain.
  unfold build, try_except, bind, py_get, ret; simpl.
  rewrite Hip, Hdomain. reflexivity.
Qed.

(** What the builder returns on a parsed output of an accepted shape,
    whatever the entries it does not read look like. *)
Lemma build_on_accepted_shape fields s :
  shape_ok (JObject fields) = true ->
  build exn_str (JObject fields) s =
    let ec2_ip := entry_value "ec2_public_ip" (JString "") fields in
    let vault_domain := entry_value "vault_domain" default_domain fields in
    if truthy ec2_ip
    then (Ok (inventory_of ec2_ip vault_domain vault_version vault_token), s)
    else (Ok empty_inventory, reported no_ip_line s).
Proof.
  unfold shape_ok, entry_ok, build, entry_value, output_value.
  unfold try_except, bind, py_get, ret, raise, py_not; simpl.
  destruct (assoc "ec2_public_ip" fields) as [[| | | | | |f_ip]|]; simpl;
    try discriminate;
  (destruct (assoc "vault_domain" fields) as [[| | | | | |f_dom]|]; simpl;
    try discriminate);
  intros _;
  repeat match goal with
         | |- context [assoc "value" ?f] => destruct (assoc "value" f); simpl
         end;
  repeat match goal with
         | |- context [truthy ?v] => destruct (truthy v); simpl
         end;
  reflexivity.
Qed.

End BuildFacts.

Section ScriptFacts.

Variable decode : list Byte.byte -> decoded.
Variable json_loads : string -> loads_failure + json.
Variable exn_str : exn -> string.
Variable encode_basestring_ascii : string -> string.
Variable float_repr : float -> string.

(** The reader on a command that came to its end and whose captured
    streams decode: each way it can go. *)
Lemma get_terraform_output_decoded w returncode out err text etext s :
  w terraform_cmd = Exited returncode out err ->
  decode out = Decoded text ->
  decode err = Decoded etext ->
  get_terraform_output decode json_loads exn_str w s
  = if returncode =? 0
    then match json_loads (translate_newlines text) with
         | inl (NotJSON msg) =>
             (Ok (JObject []), reported (parsing_line exn_str msg) s)
         | inl (IntTooLong msg) => (Raise (ValueError msg), s)
         | inl (TooDeep msg) => (Raise (RecursionError msg), s)
         | inr v => (Ok v, s)
         end
    else (Ok (JObject []), reported (running_line exn_str returncode) s).
Proof.
  intros Hrun Hout Herr.
  unfold get_terraform_output, try_except, bind, subprocess_run.
  unfold decode_stream, loads, ret, raise.
  rewrite Hrun, Hout, Herr.
  destruct (returncode =? 0); [|reflexivity]. simpl.
  destruct (json_loads (translate_newlines text)) as [[msg|msg|msg]|v];
    reflexivity.
Qed.

(** C4, amended: when the captured output and errors of the command
    decode, and the command exits with a non-zero status or
    [json.loads] raises a [JSONDecodeError] on the output, the reader
    raises nothing: it writes one line on the error stream and returns
    the empty mapping. *)
Theorem get_terraform_output_degrades w returncode out err text etext s :
  w terraform_cmd = Exited returncode out err ->
  decode out = Decoded text ->
  decode err = Decoded etext ->
  (returncode <> 0
   \/ exists msg, json_loads (translate_newlines text) = inl (NotJSON msg)) ->
  exists line,
    get_terraform_output decode json_loads exn_str w s
    = (Ok (JObject []), reported line s)
    /\ (line = "Error running terraform output: "
               +:+ exn_str (CalledProcessError returncode)
        \/ exists msg,
             json_loads (translate_newlines text) = inl (NotJSON msg)
             /\ line = "Error parsing terraform output: "
                       +:+ exn_str (JSONDecodeError msg)).
Proof.
  intros Hrun Hout Herr Hfail.
  rewrite (get_terraform_output_decoded w returncode out err text etext s)
    by assumption.
  destruct (returncode =? 0) eqn:Hcode.
  - destruct Hfail as [Hnz|[msg Hmsg]]; [lia|].
    rewrite Hmsg. eexists; split; [reflexivity|]. right. eauto.
  - eexists; split; [reflexivity|]. left. reflexivity.
Qed.

(** The builder on a mapping of an accepted shape. *)
Lemma build_built_from fields s :
  shape_ok (JObject fields) = true ->
  exists s',
    build exn_str (JObject fields) s = (Ok (built_from fields), s')
    /\ stdout s' = stdout s.
Proof.
  intros Hshape.
  rewrite build_on_accepted_shape by assumption. unfold built_from.
  destruct (truthy _); eexists; split; reflexivity.
Qed.

(** Where list mode has a document to print, [generate_inventory]
    returns that document and leaves the standard output alone. *)
Lemma generate_inventory_listed w returncode out err text etext doc s :
  w terraform_cmd = Exited returncode out err ->
  decode out = Decoded text ->
  decode err = Decoded etext ->
  listed_document json_loads returncode (translate_newlines text) = Some doc ->
  exists s',
    generate_inventory decode json_loads exn_str w s = (Ok doc, s')
    /\ stdout s' = stdout s.
Proof.
  intros Hrun Hout Herr Hdoc.
  unfold generate_inventory, bind.
  rewrite (get_terraform_output_decoded w returncode out err text etext s)
    by assumption.
  unfold listed_document in Hdoc.
  destruct (returncode =? 0).
  - destruct (json_loads (translate_newlines text)) as [[msg|msg|msg]|v];
      try discriminate.
    + injection Hdoc as <-. eexists. split; reflexivity.
    + destruct v as [| | | | | |fields]; try discriminate.
      destruct (shape_ok (JObject fields)) eqn:Hshape; [|discriminate].
      injection Hdoc as <-. apply build_built_from. exact Hshape.
  - injection Hdoc as <-. eexists. split; reflexivity.
Qed.

(** C3, amended: the three shapes of the argument list.  With exactly
    [--list], in a run where the command came to its end, what was
    captured decodes, and the script has a document for its output
    (the empty inventory after a failed command or a text that is not
    JSON, the built inventory for a mapping of an accepted shape),
    that document is printed with an indentation of 2 and the exit
    status is 0; with exactly [--host] and any name, [{}] is printed
    and the exit status is 0; every other argument list gets the usage
    line on the error stream and a non-zero exit status. *)
Theorem main_argument_shapes argv w s :
  (tail argv = ["--list"] ->
   forall returncode out err text etext doc,
     w terraform_cmd = Exited returncode out err ->
     decode out = Decoded text ->
     decode err = Decoded etext ->
     listed_document json_loads returncode (translate_newlines text)
     = Some doc ->
     exists s',
       stdout s' = stdout s
       /\ main decode json_loads exn_str encode_basestring_ascii float_repr
            argv w s
          = (Ok tt,
             printed
               (json_dumps encode_basestring_ascii float_repr (Some 2%nat) doc)
               s')
       /\ exit_status
            (fst (main decode json_loads exn_str encode_basestring_ascii
                    float_repr argv w s)) = 0)
  /\ (forall hostname,
       tail argv = ["--host"; hostname] ->
       main decode json_loads exn_str encode_basestring_ascii float_repr
         argv w s
       = (Ok tt, printed "{}" s)
       /\ exit_status
            (fst (main decode json_loads exn_str encode_basestring_ascii
                    float_repr argv w s)) = 0)
  /\ (tail argv <> ["--list"] ->
      (forall hostname, tail argv <> ["--host"; hostname]) ->
      main decode json_loads exn_str encode_basestring_ascii float_repr
        argv w s
      = (Raise (SystemExit 1), reported usage s)
      /\ exit_status
           (fst (main decode json_loads exn_str encode_basestring_ascii
                   float_repr argv w s)) <> 0).
Proof.
  split; [|split].
  - intros Hargs returncode out err text etext doc Hrun Hout Herr Hdoc.
    destruct argv as [|prog args]; [discriminate|]. simpl in Hargs. subst args.
    destruct (generate_inventory_listed w returncode out err text etext doc s
                Hrun Hout Herr Hdoc) as (s' & Hgen & Hstdout).
    exists s'. unfold main, bind. simpl. rewrite Hgen. simpl.
    repeat split; assumption.
  - intros hostname Hargs.
    destruct argv as [|prog args]; [discriminate|]. simpl in Hargs. subst args.
    split; reflexivity.
  - intros Hlist Hhost.
    assert (main decode json_loads exn_str encode_basestring_ascii float_repr
              argv w s
            = (Raise (SystemExit 1), reported usage s)) as ->;
      [|split; [reflexivity|discriminate]].
    unfold main, bind, print_err, raise.
    destruct argv as [|prog [|a [|b [|c rest]]]]; simpl in *; try reflexivity.
    + case_bool_decide as Ha; [|reflexivity].
      injection Ha as ->. contradiction.
    + case_bool_decide as Ha; [|reflexivity].
      injection Ha as ->. destruct (Hhost b). reflexivity.
Qed.

End ScriptFacts.

(** * The properties on the sample run *)

(** The scenario of the specification, from the command to the
    document. *)
Example generate_inventory_scenario :
  generate_inventory sample_decode sample_loads sample_exn_str sample_world
    fresh
  = (Ok (inventory_of (JString "203.0.113.10") (JString "vault.test")
           vault_version vault_token),
     fresh).
Proof. reflexivity. Qed.

Example scenario_group_domain :
  get_path ["vault_servers"; "vars"; "vault_domain"]
    (inventory_of (JString "203.0.113.10") (JString "vault.test")
       vault_version vault_token)
  = Some (JString "vault.test").
Proof. reflexivity. Qed.

(** A failed command still gives a document: the empty inventory,
    after two lines on the error stream. *)
Example generate_inventory_failing_world :
  fst (generate_inventory sample_decode sample_loads sample_exn_str
         failing_world fresh)
  = Ok empty_inventory.
Proof. reflexivity. Qed.

(** An address that is a number zero counts as missing; one that is a
    list of addresses is copied as it is. *)
Example build_zero_address :
  fst (build sample_exn_str
         (JObject [("ec2_public_ip", JObject [("value", JFloat 0%float)])])
         fresh)
  = Ok empty_inventory.
Proof. reflexivity. Qed.

Example build_list_address :
  fst (build sample_exn_str
         (JObject [("ec2_public_ip",
                     JObject [("value", JArray [JString "203.0.113.10"])])])
         fresh)
  = Ok (inventory_of (JArray [JString "203.0.113.10"]) default_domain
          vault_version vault_token).
Proof. reflexivity. Qed.

(** A parsed output that is not a mapping at all stops the builder at
    its first lookup. *)
Example build_on_list :
  build sample_exn_str (JArray []) fresh
  = (Raise (AttributeError "'list' object has no attribute 'get'"), fresh).
Proof. reflexivity. Qed.

(** In list mode the exception of the builder ends the script: nothing
    is printed and the exit status is 1. *)
Example main_list_bare_address :
  main sample_decode bare_loads sample_exn_str sample_encode sample_float_repr
    ["dynamic_inventory.py"; "--list"] bare_world fresh
  = (Raise (AttributeError "'str' object has no attribute 'get'"), fresh)
  /\ exit_status
       (fst (main sample_decode bare_loads sample_exn_str sample_encode
               sample_float_repr
               ["dynamic_inventory.py"; "--list"] bare_world fresh)) = 1.
Proof. split; reflexivity. Qed.

Example host_mode_prints_empty_object :
  json_dumps sample_encode sample_float_repr None (JObject []) = "{}".
Proof. reflexivity. Qed.

Lemma build_ansible_host_scenario :
  provisioning_output scenario = true
  /\ output_value "ec2_public_ip" scenario = Some (JString "203.0.113.10")
  /\ truthy (JString "203.0.113.10") = true
  /\ exists doc,
       build sample_exn_str (JObject scenario) fresh = (Ok doc, fresh)
       /\ get_path ["_meta"; "hostvars"; "vault_server"; "ansible_host"] doc
          = Some (JString "203.0.113.10").
Proof.
  repeat split.
  apply (build_ansible_host sample_exn_str scenario (JString "203.0.113.10")
           fresh); reflexivity.
Defined.

Lemma build_empty_inventory_no_address :
  provisioning_output no_address = true
  /\ exists doc,
       build sample_exn_str (JObject no_address) fresh
       = (Ok doc, reported no_ip_line fresh)
       /\ doc = empty_inventory
       /\ get_path ["_meta"; "hostvars"] doc = Some (JObject [])
       /\ group_keys doc = [].
Proof.
  split; [reflexivity|].
  apply (build_empty_inventory sample_exn_str no_address fresh);
    [reflexivity|left; reflexivity].
Defined.

Lemma build_vault_domain_scenario :
  provisioning_output scenario = true
  /\ exists doc s',
       build sample_exn_str (JObject scenario) fresh = (Ok doc, s')
       /\ (output_value "vault_domain" scenario = None ->
           uses_domain doc (JString "vault.example.com"))
       /\ (forall v, output_value "vault_domain" scenario = Some v ->
           uses_domain doc v)
       /\ (forall ec2_ip,
             output_value "ec2_public_ip" scenario = Some ec2_ip ->
             truthy ec2_ip = true ->
             get_path ["vault_servers"; "vars"; "vault_domain"] doc
             = Some (entry_value "vault_domain" (JString "vault.example.com")
                       scenario)).
Proof.
  split; [reflexivity|].
  apply (build_vault_domain sample_exn_str scenario fresh); reflexivity.
Defined.

Lemma build_hosts_have_vars_scenario :
  provisioning_output scenario = true
  /\ exists doc s',
       build sample_exn_str (JObject scenario) fresh = (Ok doc, s')
       /\ (doc = empty_inventory
           \/ exists ec2_ip vault_domain,
                doc = inventory_of ec2_ip vault_domain vault_version
                        vault_token)
       /\ inventory_invariant doc = true.
Proof.
  split; [reflexivity|].
  apply (build_hosts_have_vars sample_exn_str scenario fresh); reflexivity.
Defined.

Lemma build_reads_two_entries_extra_output :
  build sample_exn_str (JObject scenario_and_more) fresh
  = build sample_exn_str (JObject scenario) fresh.
Proof.
  apply (build_reads_two_entries sample_exn_str scenario_and_more scenario
           fresh); reflexivity.
Defined.

Lemma get_terraform_output_degrades_exit_1 :
  failing_world terraform_cmd
  = Exited 1 [] (bytes_of "Error: No configuration files")
  /\ exists line,
       get_terraform_output sample_decode sample_loads sample_exn_str
         failing_world fresh
       = (Ok (JObject []), reported line fresh)
       /\ (line = "Error running terraform output: "
                  +:+ sample_exn_str (CalledProcessError 1)
           \/ exists msg,
                sample_loads (translate_newlines "") = inl (NotJSON msg)
                /\ line = "Error parsing terraform output: "
                          +:+ sample_exn_str (JSONDecodeError msg)).
Proof.
  split; [reflexivity|].
  apply (get_terraform_output_degrades sample_decode sample_loads
           sample_exn_str failing_world 1 []
           (bytes_of "Error: No configuration files") ""
           "Error: No configuration files" fresh);
    [reflexivity|reflexivity|reflexivity|left; lia].
Defined.

(** The claim as first worded fails where the captured bytes are no
    text: the command exits with a non-zero status, and the reader
    raises. *)
Lemma get_terraform_output_raises_on_undecodable :
  undecodable_world terraform_cmd = Exited 1 [Byte.xff; Byte.xfe] []
  /\ ~ (exists line,
          get_terraform_output sample_decode sample_loads sample_exn_str
            undecodable_world fresh
          = (Ok (JObject []), reported line fresh))
  /\ exists msg,
       get_terraform_output sample_decode sample_loads sample_exn_str
         undecodable_world fresh
       = (Raise (UnicodeDecodeError msg), fresh).
Proof.
  split; [reflexivity|]. split.
  - intros [line Hline]. vm_compute in Hline. discriminate.
  - eexists. reflexivity.
Qed.

Lemma main_list_sample :
  exists s',
    stdout s' = stdout fresh
    /\ main sample_decode sample_loads sample_exn_str sample_encode
         sample_float_repr ["dynamic_inventory.py"; "--list"] sample_world
         fresh
       = (Ok tt,
          printed
            (json_dumps sample_encode sample_float_repr (Some 2%nat)
               (built_from scenario))
            s')
    /\ exit_status
         (fst (main sample_decode sample_loads sample_exn_str sample_encode
                 sample_float_repr ["dynamic_inventory.py"; "--list"]
                 sample_world fresh)) = 0.
Proof.
  apply (proj1 (main_argument_shapes sample_decode sample_loads
                  sample_exn_str sample_encode sample_float_repr
                  ["dynamic_inventory.py"; "--list"] sample_world fresh)
           eq_refl 0 (bytes_of scenario_text) [] scenario_text ""
           (built_from scenario));
    reflexivity.
Defined.

(** The claim as first worded fails where the command cannot be
    started: list mode ends with status 1 and nothing printed. *)
Lemma main_list_fails_without_command :
  ~ (exit_status
       (fst (main sample_decode sample_loads sample_exn_str sample_encode
               sample_float_repr ["dynamic_inventory.py"; "--list"]
               missing_world fresh)) = 0)
  /\ stdout
       (snd (main sample_decode sample_loads sample_exn_str sample_encode
               sample_float_repr ["dynamic_inventory.py"; "--list"]
               missing_world fresh))
     = stdout fresh.
Proof.
  split; [|reflexivity]. vm_compute. discriminate.
Qed.

(** * Further properties of the builder *)

Section BuilderShapes.

Variable exn_str : exn -> string.

(** The builder returns exactly on the parsed outputs that are a
    mapping whose entries under [ec2_public_ip] and [vault_domain] are
    records or missing; on every other one it raises an
    [AttributeError] and writes nothing.  The entries it does not read
    may have any shape. *)
Theorem build_returns_iff_shape out s :
  if shape_ok out
  then exists doc s', build exn_str out s = (Ok doc, s')
  else exists msg, build exn_str out s = (Raise (AttributeError msg), s).
Proof.
  unfold build, try_except, bind, py_get, ret, raise, py_not.
  destruct out as [| | | | | |fields]; simpl;
    try (eexists; reflexivity).
  unfold entry_ok.
  destruct (assoc "ec2_public_ip" fields) as [[| | | | | |f_ip]|]; simpl;
    try (eexists; reflexivity);
  (destruct (assoc "vault_domain" fields) as [[| | | | | |f_dom]|]; simpl;
    try (eexists; reflexivity));
  repeat match goal with
         | |- context [assoc "value" ?f] => destruct (assoc "value" f); simpl
         end;
  repeat match goal with
         | |- context [truthy ?v] => destruct (truthy v); simpl
         end;
  solve [eexists; reflexivity | eexists _, _; reflexivity].
Qed.

(** A document the builder returns is the empty inventory, with the
    report on the error stream, or carries an address that Python
    treats as true, with nothing written: an inventory never names a
    host without an address. *)
Theorem build_address_is_true out s doc s' :
  build exn_str out s = (Ok doc, s') ->
  (doc = empty_inventory /\ s' = reported no_ip_line s)
  \/ (exists ec2_ip,
        get_path ["_meta"; "hostvars"; "vault_server"; "ansible_host"] doc
        = Some ec2_ip
        /\ truthy ec2_ip = true
        /\ s' = s).
Proof.
  destruct (build_outcomes exn_str out) as [H|[(ip & dom & Hip & H)|(msg & H)]];
    rewrite H; intros [= <- <-].
  - left. split; reflexivity.
  - right. exists ip. repeat split. exact Hip.
Qed.

(** The settings the script fixes itself cannot be set from the
    provisioning output: in every document with a group, the version,
    the token, the login, the key file and the ssh options are the
    literals of the script. *)
Theorem build_fixed_settings out s doc s' :
  build exn_str out s = (Ok doc, s') ->
  doc <> empty_inventory ->
  get_path ["vault_servers"; "vars"; "vault_version"] doc
  = Some (JString "1.15.6")
  /\ get_path ["vault_servers"; "vars"; "vault_root_token"] doc
     = Some (JString "vault-dev-root-token")
  /\ get_path ["_meta"; "hostvars"; "vault_server"; "ansible_user"] doc
     = Some (JString "ubuntu")
  /\ get_path
       ["_meta"; "hostvars"; "vault_server"; "ansible_ssh_private_key_file"]
       doc
     = Some (JString "../vault-ssh-key.pem")
  /\ get_path
       ["_meta"; "hostvars"; "vault_server"; "ansible_ssh_common_args"] doc
     = Some (JString "-o StrictHostKeyChecking=no").
Proof.
  destruct (build_outcomes exn_str out) as [H|[(ip & dom & Hip & H)|(msg & H)]];
    rewrite H; intros [= <- <-] Hfull.
  - contradiction.
  - repeat split.
Qed.

(** The hosts that the groups list are exactly the keys of
    [_meta.hostvars], in the same order, and there is at most one; with
    an address it is the one host [vault_server] of the one group
    [vault_servers]. *)
Theorem build_single_host out s doc s' :
  build exn_str out s = (Ok doc, s') ->
  listed_hosts doc = map JString (keys (hostvars doc))
  /\ (doc = empty_inventory
      \/ (group_keys doc = ["vault_servers"]
          /\ listed_hosts doc = [JString "vault_server"])).
Proof.
  destruct (build_outcomes exn_str out) as [H|[(ip & dom & Hip & H)|(msg & H)]];
    rewrite H; intros [= <- <-].
  - split; [reflexivity|]. left. reflexivity.
  - split; [reflexivity|]. right. split; reflexivity.
Qed.

End BuilderShapes.

(** * Further properties of the script *)

Lemma string_app_nil_r (text : string) : text +:+ "" = text.
Proof.
  induction text as [|x text IH]; [reflexivity|].
  change (String x (text +:+ "") = String x text). now rewrite IH.
Qed.

Lemma string_app_assoc (a b c : string) : (a +:+ b) +:+ c = a +:+ b +:+ c.
Proof.
  induction a as [|x a IH]; [reflexivity|].
  change (String x ((a +:+ b) +:+ c) = String x (a +:+ b +:+ c)).
  now rewrite IH.
Qed.

Lemma appended_nothing s : appended "" s = s.
Proof. destruct s. unfold appended. simpl. now rewrite string_app_nil_r. Qed.

Lemma appended_appended l1 l2 s :
  appended l2 (appended l1 s) = appended (l1 +:+ l2) s.
Proof. unfold appended. simpl. now rewrite string_app_assoc. Qed.

Lemma reported_appended line s :
  reported line s = appended (line +:+ newline) s.
Proof. reflexivity. Qed.

Section ScriptRuns.

Variable decode : list Byte.byte -> decoded.
Variable json_loads : string -> loads_failure + json.
Variable exn_str : exn -> string.
Variable encode_basestring_ascii : string -> string.
Variable float_repr : float -> string.

(** Every way the builder can end after the reader wrote [line], and
    after it wrote nothing. *)
Lemma build_after_report out line s :
  (exists doc lines,
     build exn_str out (reported line s) = (Ok doc, appended lines s)
     /\ inventory_invariant doc = true)
  \/ (exists msg lines,
        build exn_str out (reported line s)
        = (Raise (AttributeError msg), appended lines s)).
Proof.
  rewrite reported_appended.
  destruct (build_outcomes exn_str out)
    as [H|[(ip & dom & Hip & H)|(msg & H)]]; rewrite H.
  - left. eexists _, _. rewrite reported_appended, appended_appended.
    split; reflexivity.
  - left. eexists _, _. split; reflexivity.
  - right. eexists _, _. reflexivity.
Qed.

Lemma build_after_nothing out s :
  (exists doc lines,
     build exn_str out s = (Ok doc, appended lines s)
     /\ inventory_invariant doc = true)
  \/ (exists msg lines,
        build exn_str out s = (Raise (AttributeError msg), appended lines s)).
Proof.
  destruct (build_outcomes exn_str out)
    as [H|[(ip & dom & Hip & H)|(msg & H)]]; rewrite H.
  - left. eexists _, _. rewrite reported_appended. split; reflexivity.
  - left. exists (inventory_of ip dom vault_version vault_token), "".
    rewrite appended_nothing. split; reflexivity.
  - right. exists msg, "". rewrite appended_nothing. reflexivity.
Qed.

(** Every way [generate_inventory] can end: with one of the two
    documents, with the [AttributeError] of the builder, or with an
    exception of the reader that no clause names, before anything was
    written; lines go to the error stream only. *)
Lemma generate_inventory_cases w s :
  (exists doc lines,
     generate_inventory decode json_loads exn_str w s
     = (Ok doc, appended lines s)
     /\ inventory_invariant doc = true)
  \/ (exists msg lines,
        generate_inventory decode json_loads exn_str w s
        = (Raise (AttributeError msg), appended lines s))
  \/ (exists e,
        passes_reader e = true
        /\ generate_inventory decode json_loads exn_str w s = (Raise e, s)).
Proof.
  unfold generate_inventory, get_terraform_output, try_except, bind.
  unfold subprocess_run, decode_stream, loads, ret, raise.
  destruct (w terraform_cmd) as [msg|returncode out err].
  { right. right. eexists. split; [|reflexivity]. reflexivity. }
  destruct (decode out) as [msg|text].
  { right. right. eexists. split; [|reflexivity]. reflexivity. }
  destruct (decode err) as [msg|etext].
  { right. right. eexists. split; [|reflexivity]. reflexivity. }
  destruct (returncode =? 0); simpl.
  - destruct (json_loads (translate_newlines text)) as [[msg|msg|msg]|v];
      simpl.
    + destruct (build_after_report (JObject []) (parsing_line exn_str msg) s)
        as [H|H]; [left|right; left]; exact H.
    + right. right. eexists. split; [|reflexivity]. reflexivity.
    + right. right. eexists. split; [|reflexivity]. reflexivity.
    + destruct (build_after_nothing v s) as [H|H]; [left|right; left];
        exact H.
  - destruct (build_after_report (JObject [])
                (running_line exn_str returncode) s)
      as [H|H]; [left|right; left]; exact H.
Qed.

(** What [main] does in list mode, read off [generate_inventory]. *)
Lemma main_list_mode prog w s :
  main decode json_loads exn_str encode_basestring_ascii float_repr
    [prog; "--list"] w s
  = match generate_inventory decode json_loads exn_str w s with
    | (Ok doc, s') =>
        (Ok tt,
         printed
           (json_dumps encode_basestring_ascii float_repr (Some 2%nat) doc) s')
    | (Raise e, s') => (Raise e, s')
    end.
Proof.
  unfold main, bind. simpl.
  destruct (generate_inventory decode json_loads exn_str w s)
    as [[doc|e] s']; reflexivity.
Qed.

(** The three branches of [main]. *)
Lemma main_dispatch argv w s :
  (exists prog, argv = [prog; "--list"])
  \/ main decode json_loads exn_str encode_basestring_ascii float_repr
       argv w s
     = (Ok tt, printed "{}" s)
  \/ main decode json_loads exn_str encode_basestring_ascii float_repr
       argv w s
     = (Raise (SystemExit 1), reported usage s).
Proof.
  unfold main, bind, print_err, raise.
  destruct argv as [|prog [|a [|b [|c rest]]]]; simpl; auto.
  - case_bool_decide as Ha; [|auto].
    injection Ha as ->. left. eauto.
  - case_bool_decide as Ha; auto.
Qed.

(** When the command exits with [0], what was captured decodes and
    the output parses, the reader returns the parsed value as it is,
    of whatever type, and writes nothing; the inventory is then what
    the builder makes of that value. *)
Theorem get_terraform_output_passes_through w out err text etext v s :
  w terraform_cmd = Exited 0 out err ->
  decode out = Decoded text ->
  decode err = Decoded etext ->
  json_loads (translate_newlines text) = inr v ->
  get_terraform_output decode json_loads exn_str w s = (Ok v, s)
  /\ generate_inventory decode json_loads exn_str w s = build exn_str v s.
Proof.
  intros Hrun Hout Herr Hparse.
  unfold generate_inventory, bind.
  rewrite (get_terraform_output_decoded decode json_loads exn_str
             w 0 out err text etext s) by assumption.
  simpl. rewrite Hparse. split; reflexivity.
Qed.

(** List mode from end to end: when the command exits with [0], what
    was captured decodes, and the output parses to a mapping whose
    address is non-empty, the script prints the inventory built from
    the address and the domain (or its default), indented by 2, writes
    nothing on the error stream and ends with status 0.  Entries other
    than the two it reads may have any shape. *)
Theorem main_list_prints_inventory prog w out err text etext fields ec2_ip s :
  w terraform_cmd = Exited 0 out err ->
  decode out = Decoded text ->
  decode err = Decoded etext ->
  json_loads (translate_newlines text) = inr (JObject fields) ->
  shape_ok (JObject fields) = true ->
  output_value "ec2_public_ip" fields = Some ec2_ip ->
  truthy ec2_ip = true ->
  main decode json_loads exn_str encode_basestring_ascii float_repr
    [prog; "--list"] w s
  = (Ok tt,
     printed
       (json_dumps encode_basestring_ascii float_repr (Some 2%nat)
          (inventory_of ec2_ip
             (entry_value "vault_domain" (JString "vault.example.com") fields)
             (JString "1.15.6") (JString "vault-dev-root-token")))
       s).
Proof.
  intros Hrun Hout Herr Hparse Hshape Hip Htrue.
  rewrite main_list_mode.
  unfold generate_inventory, bind.
  rewrite (get_terraform_output_decoded decode json_loads exn_str
             w 0 out err text etext s) by assumption.
  simpl. rewrite Hparse.
  rewrite build_on_accepted_shape by assumption. cbv zeta.
  assert (entry_value "ec2_public_ip" (JString "") fields = ec2_ip) as ->
    by (unfold entry_value; now rewrite Hip).
  rewrite Htrue. reflexivity.
Qed.

(** List mode after a failed command: when what was captured decodes,
    a non-zero return code gives the empty inventory on the standard
    output and status 0, after two lines on the error stream, the
    reader's and then the builder's.  The output of the command is not
    parsed. *)
Theorem main_list_nonzero_exit prog w returncode out err text etext s :
  w terraform_cmd = Exited returncode out err ->
  decode out = Decoded text ->
  decode err = Decoded etext ->
  returncode <> 0 ->
  generate_inventory decode json_loads exn_str w s
  = (Ok empty_inventory,
     reported no_ip_line (reported (running_line exn_str returncode) s))
  /\ main decode json_loads exn_str encode_basestring_ascii float_repr
       [prog; "--list"] w s
     = (Ok tt,
        printed
          (json_dumps encode_basestring_ascii float_repr (Some 2%nat)
             empty_inventory)
          (reported no_ip_line
             (reported (running_line exn_str returncode) s))).
Proof.
  intros Hrun Hout Herr Hcode.
  rewrite main_list_mode.
  unfold generate_inventory, bind.
  rewrite (get_terraform_output_decoded decode json_loads exn_str
             w returncode out err text etext s) by assumption.
  apply Z.eqb_neq in Hcode. rewrite Hcode. split; reflexivity.
Qed.

(** List mode after an output that is not JSON: when the command
    exits with [0], what was captured decodes, and [json.loads] raises
    a [JSONDecodeError], the same empty inventory is printed with
    status 0, the reader's line now telling of the parse. *)
Theorem main_list_parse_failure prog w out err text etext msg s :
  w terraform_cmd = Exited 0 out err ->
  decode out = Decoded text ->
  decode err = Decoded etext ->
  json_loads (translate_newlines text) = inl (NotJSON msg) ->
  generate_inventory decode json_loads exn_str w s
  = (Ok empty_inventory,
     reported no_ip_line (reported (parsing_line exn_str msg) s))
  /\ main decode json_loads exn_str encode_basestring_ascii float_repr
       [prog; "--list"] w s
     = (Ok tt,
        printed
          (json_dumps encode_basestring_ascii float_repr (Some 2%nat)
             empty_inventory)
          (reported no_ip_line (reported (parsing_line exn_str msg) s))).
Proof.
  intros Hrun Hout Herr Hparse.
  rewrite main_list_mode.
  unfold generate_inventory, bind.
  rewrite (get_terraform_output_decoded decode json_loads exn_str
             w 0 out err text etext s) by assumption.
  simpl. rewrite Hparse. split; reflexivity.
Qed.

(** A command that cannot be started is not among the failures the
    reader recovers from: the [OSError] leaves the reader and list
    mode, nothing is written by the script, and the exit status
    is 1. *)
Theorem main_list_command_not_started prog w msg s :
  w terraform_cmd = NotStarted msg ->
  get_terraform_output decode json_loads exn_str w s
  = (Raise (OSError msg), s)
  /\ main decode json_loads exn_str encode_basestring_ascii float_repr
       [prog; "--list"] w s
     = (Raise (OSError msg), s)
  /\ exit_status
       (fst (main decode json_loads exn_str encode_basestring_ascii
               float_repr [prog; "--list"] w s)) = 1.
Proof.
  intros Hrun.
  rewrite main_list_mode.
  unfold generate_inventory, get_terraform_output, try_except, bind.
  unfold subprocess_run. rewrite Hrun. repeat split.
Qed.

(** Captured bytes that are no text are not among the failures the
    reader recovers from either: whatever the return code, the
    [UnicodeDecodeError] of the output, or else of the errors, leaves
    the reader before the return code is looked at; nothing is
    written and list mode ends with status 1. *)
Theorem main_list_undecodable prog w returncode out err msg s :
  w terraform_cmd = Exited returncode out err ->
  (decode out = Undecodable msg
   \/ ((exists text, decode out = Decoded text)
       /\ decode err = Undecodable msg)) ->
  get_terraform_output decode json_loads exn_str w s
  = (Raise (UnicodeDecodeError msg), s)
  /\ main decode json_loads exn_str encode_basestring_ascii float_repr
       [prog; "--list"] w s
     = (Raise (UnicodeDecodeError msg), s)
  /\ exit_status
       (fst (main decode json_loads exn_str encode_basestring_ascii
               float_repr [prog; "--list"] w s)) = 1.
Proof.
  intros Hrun Hbytes.
  rewrite main_list_mode.
  unfold generate_inventory, get_terraform_output, try_except, bind.
  unfold subprocess_run, decode_stream. rewrite Hrun.
  destruct Hbytes as [Hout|[[text Hout] Herr]]; rewrite Hout;
    [|rewrite Herr]; repeat split.
Qed.

(** An output with an integer of too many digits, or nested too
    deeply: the [ValueError] or [RecursionError] of [json.loads] is
    not the [JSONDecodeError] the reader names, leaves it with nothing
    written, and list mode ends with status 1. *)
Theorem main_list_loads_raises prog w out err text etext failure s :
  w terraform_cmd = Exited 0 out err ->
  decode out = Decoded text ->
  decode err = Decoded etext ->
  json_loads (translate_newlines text) = inl failure ->
  (forall msg, failure <> NotJSON msg) ->
  exists e,
    (e = match failure with
         | IntTooLong msg => ValueError msg
         | TooDeep msg => RecursionError msg
         | NotJSON msg => JSONDecodeError msg
         end)
    /\ get_terraform_output decode json_loads exn_str w s = (Raise e, s)
    /\ main decode json_loads exn_str encode_basestring_ascii float_repr
         [prog; "--list"] w s
       = (Raise e, s)
    /\ exit_status
         (fst (main decode json_loads exn_str encode_basestring_ascii
                 float_repr [prog; "--list"] w s)) = 1.
Proof.
  intros Hrun Hout Herr Hparse Hkind.
  rewrite main_list_mode.
  unfold generate_inventory, bind.
  rewrite (get_terraform_output_decoded decode json_loads exn_str
             w 0 out err text etext s) by assumption.
  simpl. rewrite Hparse.
  destruct failure as [msg|msg|msg]; [destruct (Hkind msg eq_refl)| |];
    eexists; repeat split.
Qed.

(** The exceptions that leave [generate_inventory] are the
    [AttributeError] of a lookup on something that is not a mapping
    and those of the reader that neither clause names ([OSError],
    [UnicodeDecodeError], [ValueError], [RecursionError]), which leave
    it before anything is written: a [CalledProcessError], a
    [JSONDecodeError], a [KeyError] or a [SystemExit] never does. *)
Theorem generate_inventory_exceptions w s e s' :
  generate_inventory decode json_loads exn_str w s = (Raise e, s') ->
  (exists msg, e = AttributeError msg)
  \/ (passes_reader e = true /\ s' = s).
Proof.
  intros Hraise.
  destruct (generate_inventory_cases w s)
    as [(doc & lines & H & _)|[(msg & lines & H)|(e' & He' & H)]];
    rewrite H in Hraise; try discriminate.
  - injection Hraise as <- _. eauto.
  - injection Hraise as <- <-. right. split; [exact He'|reflexivity].
Qed.

(** [generate_inventory] leaves the standard output alone and only
    adds to the error stream, however it ends. *)
Theorem generate_inventory_streams w s :
  exists lines,
    snd (generate_inventory decode json_loads exn_str w s) = appended lines s.
Proof.
  destruct (generate_inventory_cases w s)
    as [(doc & lines & H & _)|[(msg & lines & H)|(e & _ & H)]]; rewrite H.
  - exists lines. reflexivity.
  - exists lines. reflexivity.
  - exists "". symmetry. apply appended_nothing.
Qed.

(** Whatever list mode prints is a document that keeps the invariant
    of the inventory, in every world: after it, the standard output
    holds that one document more and the error stream what it held,
    and maybe more. *)
Theorem main_list_prints_invariant prog w s s' :
  main decode json_loads exn_str encode_basestring_ascii float_repr
    [prog; "--list"] w s = (Ok tt, s') ->
  exists doc lines,
    inventory_invariant doc = true
    /\ s' = printed
              (json_dumps encode_basestring_ascii float_repr (Some 2%nat) doc)
              (appended lines s).
Proof.
  rewrite main_list_mode.
  destruct (generate_inventory_cases w s)
    as [(doc & lines & H & Hinv)|[(msg & lines & H)|(e & _ & H)]]; rewrite H;
    intros [= <-].
  exists doc, lines. split; [exact Hinv|reflexivity].
Qed.

(** The exit status of the script is 0 or 1, and it tells what went
    to the standard output: one text and its newline with 0, nothing
    with 1. *)
Theorem main_exit_status argv w s :
  (exit_status
     (fst (main decode json_loads exn_str encode_basestring_ascii float_repr
             argv w s)) = 0
   /\ exists text,
        stdout (snd (main decode json_loads exn_str encode_basestring_ascii
                       float_repr argv w s))
        = stdout s +:+ text +:+ newline)
  \/ (exit_status
        (fst (main decode json_loads exn_str encode_basestring_ascii
                float_repr argv w s)) = 1
      /\ stdout (snd (main decode json_loads exn_str encode_basestring_ascii
                        float_repr argv w s))
         = stdout s).
Proof.
  destruct (main_dispatch argv w s) as [[prog ->]|[H|H]].
  - rewrite main_list_mode.
    destruct (generate_inventory_cases w s)
      as [(doc & lines & H & _)|[(msg & lines & H)|(e & He & H)]]; rewrite H.
    + left. split; [reflexivity|]. eexists. reflexivity.
    + right. split; reflexivity.
    + right. split; [|reflexivity].
      destruct e; try discriminate; reflexivity.
  - rewrite H. left. split; [reflexivity|]. exists "{}". reflexivity.
  - rewrite H. right. split; reflexivity.
Qed.

End ScriptRuns.

(** * The further properties on the sample runs *)

(** An entry that the builder does not read may be anything. *)
Example bare_extra_is_accepted :
  provisioning_output scenario_with_bare_extra = false
  /\ shape_ok (JObject scenario_with_bare_extra) = true
  /\ build sample_exn_str (JObject scenario_with_bare_extra) fresh
     = (Ok scenario_inventory, fresh).
Proof. repeat split. Qed.

Lemma build_address_is_true_scenario :
  (scenario_inventory = empty_inventory /\ fresh = reported no_ip_line fresh)
  \/ (exists ec2_ip,
        get_path ["_meta"; "hostvars"; "vault_server"; "ansible_host"]
          scenario_inventory = Some ec2_ip
        /\ truthy ec2_ip = true
        /\ fresh = fresh).
Proof.
  apply (build_address_is_true sample_exn_str (JObject scenario) fresh
           scenario_inventory fresh).
  reflexivity.
Defined.

Lemma build_fixed_settings_scenario_with_version :
  build sample_exn_str (JObject scenario_with_version) fresh
  = (Ok scenario_inventory, fresh)
  /\ get_path ["vault_servers"; "vars"; "vault_version"] scenario_inventory
     = Some (JString "1.15.6").
Proof.
  split; [reflexivity|].
  apply (build_fixed_settings sample_exn_str (JObject scenario_with_version)
           fresh scenario_inventory fresh);
    [reflexivity|discriminate].
Defined.

Lemma build_single_host_scenario :
  listed_hosts scenario_inventory
  = map JString (keys (hostvars scenario_inventory))
  /\ (scenario_inventory = empty_inventory
      \/ (group_keys scenario_inventory = ["vault_servers"]
          /\ listed_hosts scenario_inventory = [JString "vault_server"])).
Proof.
  apply (build_single_host sample_exn_str (JObject scenario) fresh
           scenario_inventory fresh).
  reflexivity.
Defined.

Lemma get_terraform_output_passes_through_sample :
  get_terraform_output sample_decode sample_loads sample_exn_str
    sample_world fresh
  = (Ok (JObject scenario), fresh)
  /\ generate_inventory sample_decode sample_loads sample_exn_str
       sample_world fresh
     = build sample_exn_str (JObject scenario) fresh.
Proof.
  apply (get_terraform_output_passes_through sample_decode sample_loads
           sample_exn_str sample_world (bytes_of scenario_text) []
           scenario_text "" (JObject scenario) fresh);
    reflexivity.
Defined.

Lemma main_list_prints_inventory_sample :
  main sample_decode sample_loads sample_exn_str sample_encode
    sample_float_repr list_argv sample_world fresh
  = (Ok tt,
     printed
       (json_dumps sample_encode sample_float_repr (Some 2%nat)
          (inventory_of (JString "203.0.113.10")
             (entry_value "vault_domain" (JString "vault.example.com")
                scenario)
             (JString "1.15.6") (JString "vault-dev-root-token")))
       fresh).
Proof.
  apply (main_list_prints_inventory sample_decode sample_loads sample_exn_str
           sample_encode sample_float_repr "dynamic_inventory.py"
           sample_world (bytes_of scenario_text) [] scenario_text ""
           scenario (JString "203.0.113.10") fresh);
    reflexivity.
Defined.

Lemma main_list_nonzero_exit_sample :
  generate_inventory sample_decode sample_loads sample_exn_str
    failing_world fresh
  = (Ok empty_inventory,
     reported no_ip_line (reported (running_line sample_exn_str 1) fresh))
  /\ main sample_decode sample_loads sample_exn_str sample_encode
       sample_float_repr list_argv failing_world fresh
     = (Ok tt,
        printed
          (json_dumps sample_encode sample_float_repr (Some 2%nat)
             empty_inventory)
          (reported no_ip_line
             (reported (running_line sample_exn_str 1) fresh))).
Proof.
  apply (main_list_nonzero_exit sample_decode sample_loads sample_exn_str
           sample_encode sample_float_repr "dynamic_inventory.py"
           failing_world 1 [] (bytes_of "Error: No configuration files")
           "" "Error: No configuration files" fresh);
    [reflexivity|reflexivity|reflexivity|lia].
Defined.

Lemma main_list_parse_failure_sample :
  generate_inventory sample_decode sample_loads sample_exn_str
    garbled_world fresh
  = (Ok empty_inventory,
     reported no_ip_line
       (reported
          (parsing_line sample_exn_str
             "Expecting value: line 1 column 1 (char 0)")
          fresh))
  /\ main sample_decode sample_loads sample_exn_str sample_encode
       sample_float_repr list_argv garbled_world fresh
     = (Ok tt,
        printed
          (json_dumps sample_encode sample_float_repr (Some 2%nat)
             empty_inventory)
          (reported no_ip_line
             (reported
                (parsing_line sample_exn_str
                   "Expecting value: line 1 column 1 (char 0)")
                fresh))).
Proof.
  apply (main_list_parse_failure sample_decode sample_loads sample_exn_str
           sample_encode sample_float_repr "dynamic_inventory.py"
           garbled_world (bytes_of "Warning: no outputs found") []
           "Warning: no outputs found" ""
           "Expecting value: line 1 column 1 (char 0)" fresh);
    reflexivity.
Defined.

Lemma main_list_command_not_started_sample :
  get_terraform_output sample_decode sample_loads sample_exn_str
    missing_world fresh
  = (Raise (OSError "[Errno 2] No such file or directory: 'terraform'"),
     fresh)
  /\ main sample_decode sample_loads sample_exn_str sample_encode
       sample_float_repr list_argv missing_world fresh
     = (Raise (OSError "[Errno 2] No such file or directory: 'terraform'"),
        fresh)
  /\ exit_status
       (fst (main sample_decode sample_loads sample_exn_str sample_encode
               sample_float_repr list_argv missing_world fresh)) = 1.
Proof.
  apply (main_list_command_not_started sample_decode sample_loads
           sample_exn_str sample_encode sample_float_repr
           "dynamic_inventory.py" missing_world
           "[Errno 2] No such file or directory: 'terraform'" fresh).
  reflexivity.
Defined.

Lemma main_list_undecodable_sample :
  get_terraform_output sample_decode sample_loads sample_exn_str
    undecodable_world fresh
  = (Raise (UnicodeDecodeError undecodable_message), fresh)
  /\ main sample_decode sample_loads sample_exn_str sample_encode
       sample_float_repr list_argv undecodable_world fresh
     = (Raise (UnicodeDecodeError undecodable_message), fresh)
  /\ exit_status
       (fst (main sample_decode sample_loads sample_exn_str sample_encode
               sample_float_repr list_argv undecodable_world fresh)) = 1.
Proof.
  apply (main_list_undecodable sample_decode sample_loads sample_exn_str
           sample_encode sample_float_repr "dynamic_inventory.py"
           undecodable_world 1 [Byte.xff; Byte.xfe] [] undecodable_message
           fresh);
    [reflexivity|left; reflexivity].
Defined.

Lemma main_list_loads_raises_sample :
  exists e,
    e = ValueError digits_message
    /\ get_terraform_output sample_decode long_loads sample_exn_str
         sample_world fresh = (Raise e, fresh)
    /\ main sample_decode long_loads sample_exn_str sample_encode
         sample_float_repr list_argv sample_world fresh
       = (Raise e, fresh)
    /\ exit_status
         (fst (main sample_decode long_loads sample_exn_str sample_encode
                 sample_float_repr list_argv sample_world fresh)) = 1.
Proof.
  apply (main_list_loads_raises sample_decode long_loads sample_exn_str
           sample_encode sample_float_repr "dynamic_inventory.py"
           sample_world (bytes_of scenario_text) [] scenario_text ""
           (IntTooLong digits_message) fresh);
    [reflexivity|reflexivity|reflexivity|reflexivity|discriminate].
Defined.

Lemma generate_inventory_exceptions_bare :
  (exists msg, AttributeError bare_message = AttributeError msg)
  \/ (passes_reader (AttributeError bare_message) = true /\ fresh = fresh).
Proof.
  apply (generate_inventory_exceptions sample_decode bare_loads
           sample_exn_str bare_world fresh (AttributeError bare_message)
           fresh).
  reflexivity.
Defined.

Lemma main_list_prints_invariant_sample :
  exists doc lines,
    inventory_invariant doc = true
    /\ printed
         (json_dumps sample_encode sample_float_repr (Some 2%nat)
            scenario_inventory) fresh
       = printed (json_dumps sample_encode sample_float_repr (Some 2%nat) doc)
           (appended lines fresh).
Proof.
  apply (main_list_prints_invariant sample_decode sample_loads sample_exn_str
           sample_encode sample_float_repr "dynamic_inventory.py"
           sample_world fresh
           (printed
              (json_dumps sample_encode sample_float_repr (Some 2%nat)
                 scenario_inventory) fresh)).
  reflexivity.
Defined.

(** * The round trip of the inventory through its printed text *)

(** ** Strings *)

Lemma scanstring_escape_char c tail :
  scanstring (escape_char c +:+ tail) = put c (scanstring tail).
Proof.
  destruct c as [[] [] [] [] [] [] [] []]; reflexivity.
Qed.

Lemma put_got {A} c text (rest : A) :
  put c (Got (text, rest)) = Got (String c text, rest).
Proof. reflexivity. Qed.

Lemma scanstring_escape text rest :
  scanstring (escape text +:+ quote_text +:+ rest) = Got (text, rest).
Proof.
  induction text as [|c text IH].
  - reflexivity.
  - change (escape (String c text)) with (escape_char c +:+ escape text).
    rewrite string_app_assoc, scanstring_escape_char, IH. reflexivity.
Qed.

(** ** Integers *)



Lemma span_digits_app digits rest :
  all_digits digits = true ->
  starts_with_digit rest = false ->
  span_digits (digits +:+ rest) = (digits, rest).
Proof.
  induction digits as [|c digits IH]; intros Hall Hrest.
  - change (EmptyString +:+ rest) with rest.
    destruct rest as [|c rest]; [reflexivity|].
    simpl in *. now rewrite Hrest.
  - simpl in Hall. apply andb_prop in Hall as [Hc Hall].
    change (String c digits +:+ rest) with (String c (digits +:+ rest)).
    simpl. rewrite Hc, IH by assumption. reflexivity.
Qed.

Lemma pretty_N_go_app x tail :
  pretty_N_go x tail = pretty_N_go x "" +:+ tail.
Proof.
  revert tail. induction (N.lt_wf_0 x) as [x _ IH]. intros tail.
  destruct (decide (0 < x)%N) as [Hpos|Hzero].
  - rewrite (pretty_N_go_step x tail), (pretty_N_go_step x "") by assumption.
    assert (x `div` 10 < x)%N as Hlt by (apply N.div_lt; lia).
    rewrite (IH _ Hlt (String (pretty_N_char (x `mod` 10)) tail)).
    rewrite (IH _ Hlt (String (pretty_N_char (x `mod` 10)) "")).
    rewrite string_app_assoc. reflexivity.
  - assert (x = 0%N) as -> by lia. rewrite !pretty_N_go_0. reflexivity.
Qed.

Lemma pretty_N_go_snoc x :
  (0 < x)%N ->
  pretty_N_go x ""
  = pretty_N_go (x `div` 10) "" +:+ String (pretty_N_char (x `mod` 10)) "".
Proof.
  intros Hpos. rewrite (pretty_N_go_step x "") by assumption.
  apply pretty_N_go_app.
Qed.

Lemma pretty_N_char_digit d :
  (d < 10)%N ->
  is_digit (pretty_N_char d) = true
  /\ (N_of_ascii (pretty_N_char d) - 48)%N = d.
Proof.
  intros Hd.
  destruct d as [|p]; [split; reflexivity|].
  do 4 (destruct p as [p|p|]; try lia; try (split; reflexivity)).
Qed.

Lemma all_digits_app a b :
  all_digits (a +:+ b) = all_digits a && all_digits b.
Proof.
  induction a as [|c a IH]; [reflexivity|].
  change (String c a +:+ b) with (String c (a +:+ b)).
  simpl. rewrite IH. apply andb_assoc.
Qed.

Lemma digits_value_app acc a b :
  digits_value acc (a +:+ b) = digits_value (digits_value acc a) b.
Proof.
  revert acc. induction a as [|c a IH]; intros acc; [reflexivity|].
  change (String c a +:+ b) with (String c (a +:+ b)).
  simpl. apply IH.
Qed.

(** The digits of a positive number: all digits, the first not a
    zero, and their value the number. *)
Lemma pretty_N_go_digits x :
  all_digits (pretty_N_go x "") = true
  /\ digits_value 0 (pretty_N_go x "") = x
  /\ ((0 < x)%N ->
      exists c rest,
        pretty_N_go x "" = String c rest
        /\ is_digit c = true /\ Ascii.eqb c "0" = false).
Proof.
  induction (N.lt_wf_0 x) as [x _ IH].
  destruct (decide (0 < x)%N) as [Hpos|Hzero].
  - destruct (IH (x `div` 10)%N) as (Hall & Hval & Hhead);
      [apply N.div_lt; lia|].
    destruct (pretty_N_char_digit (x `mod` 10))
      as [Hdigit Hvalue]; [apply N.mod_lt; lia|].
    rewrite pretty_N_go_snoc by assumption.
    rewrite all_digits_app, digits_value_app, Hall, Hval. simpl.
    rewrite Hdigit, Hvalue. repeat split.
    + rewrite (N.div_mod x 10) at 3 by lia. lia.
    + intros _.
      destruct (decide (0 < x `div` 10)%N) as [Hmore|Hlast].
      * destruct (Hhead Hmore) as (c & rest & -> & Hc & Hnz).
        eexists _, _. split; [reflexivity|]. split; assumption.
      * assert (x `div` 10 = 0)%N as Hdiv by lia.
        rewrite Hdiv, pretty_N_go_0.
        eexists _, _. split; [reflexivity|]. split; [exact Hdigit|].
        assert (x `mod` 10 = x)%N as Hmod
          by (rewrite (N.div_mod x 10) at 2 by lia; lia).
        assert (x < 10)%N by (rewrite <- Hmod; apply N.mod_lt; lia).
        rewrite Hmod.
        destruct x as [|p]; [lia|].
        do 4 (destruct p as [p|p|]; try lia; try reflexivity).
  - assert (x = 0%N) as -> by lia. rewrite pretty_N_go_0.
    repeat split. lia.
Qed.

Lemma delimited_facts c rest :
  delimited (String c rest) = true ->
  is_digit c = false /\ Ascii.eqb c "."%char = false
  /\ Ascii.eqb c "e"%char = false /\ Ascii.eqb c "E"%char = false.
Proof.
  unfold delimited. intros H. apply negb_true_iff in H.
  repeat (apply orb_false_iff in H as [H ?]). auto.
Qed.

Lemma delimited_no_digit rest :
  delimited rest = true -> starts_with_digit rest = false.
Proof.
  destruct rest as [|c rest]; [reflexivity|].
  intros H. apply delimited_facts in H as [H _]. exact H.
Qed.

Lemma match_frac_delimited rest :
  delimited rest = true -> match_frac rest = ("", rest).
Proof.
  destruct rest as [|c rest]; [reflexivity|].
  intros H. apply delimited_facts in H as (_ & H & _).
  unfold match_frac. now rewrite H.
Qed.

Lemma match_exponent_delimited rest :
  delimited rest = true -> match_exponent rest = ("", rest).
Proof.
  destruct rest as [|c rest]; [reflexivity|].
  intros H. apply delimited_facts in H as (_ & _ & He & HE).
  unfold match_exponent. now rewrite He, HE.
Qed.

(** What the first character of a number is not. *)
Lemma digit_head c :
  is_digit c = true ->
  Ascii.eqb c dquote = false /\ Ascii.eqb c "{"%char = false
  /\ Ascii.eqb c "["%char = false /\ Ascii.eqb c "-"%char = false
  /\ Ascii.eqb "n"%char c = false /\ Ascii.eqb "t"%char c = false
  /\ Ascii.eqb "f"%char c = false /\ is_ws c = false
  /\ Ascii.eqb c "]"%char = false.
Proof.
  destruct c as [[] [] [] [] [] [] [] []]; intros H;
    solve [discriminate H | repeat split].
Qed.

Lemma pretty_Zpos p : pretty (Z.pos p) = pretty_N_go (N.pos p) "".
Proof. reflexivity. Qed.

Lemma pretty_Zneg p :
  pretty (Z.neg p) = String "-"%char (pretty_N_go (N.pos p) "").
Proof. reflexivity. Qed.

(** The digits of a positive number, as the scanner meets them. *)
Lemma positive_digits p :
  exists c digits,
    pretty_N_go (N.pos p) "" = String c digits
    /\ is_digit c = true /\ Ascii.eqb c "0"%char = false
    /\ all_digits (String c digits) = true
    /\ digits_value 0 (String c digits) = N.pos p.
Proof.
  destruct (pretty_N_go_digits (N.pos p)) as (Hall & Hval & Hhead).
  destruct Hhead as (c & digits & Heq & Hc & Hnz); [lia|].
  exists c, digits. rewrite <- Heq. auto.
Qed.

Lemma match_number_int (n : Z) rest :
  delimited rest = true ->
  match_number (pretty n +:+ rest) = Some (mkNumber (pretty n) "" "" rest).
Proof.
  intros Hrest. unfold match_number.
  assert (forall int_part,
    match_integer (pretty n +:+ rest) = Some (int_part, rest) ->
    match match_integer (pretty n +:+ rest) with
    | Some (int_part, after_int) =>
        let (frac_part, after_frac) := match_frac after_int in
        let (exp_part, after_exp) := match_exponent after_frac in
        Some (mkNumber int_part frac_part exp_part after_exp)
    | None => None
    end = Some (mkNumber int_part "" "" rest)) as Hthen.
  { intros int_part ->.
    rewrite match_frac_delimited, match_exponent_delimited by assumption.
    reflexivity. }
  apply Hthen. clear Hthen.
  destruct n as [|p|p].
  - reflexivity.
  - rewrite pretty_Zpos.
    destruct (positive_digits p) as (c & digits & -> & Hc & Hnz & Hall & _).
    destruct (digit_head c Hc) as (_ & _ & _ & Hminus & _).
    unfold match_integer.
    change (String c digits +:+ rest) with (String c (digits +:+ rest)).
    cbv beta iota. rewrite Hminus. cbv beta iota. rewrite Hnz, Hc.
    change (String c (digits +:+ rest)) with (String c digits +:+ rest).
    rewrite span_digits_app by auto using delimited_no_digit. reflexivity.
  - rewrite pretty_Zneg.
    destruct (positive_digits p) as (c & digits & -> & Hc & Hnz & Hall & _).
    unfold match_integer.
    change (String "-"%char (String c digits) +:+ rest)
      with (String "-"%char (String c (digits +:+ rest))).
    cbv beta iota.
    change (Ascii.eqb "-" "-") with true. cbv beta iota.
    rewrite Hnz, Hc.
    change (String c (digits +:+ rest)) with (String c digits +:+ rest).
    rewrite span_digits_app by auto using delimited_no_digit. reflexivity.
Qed.

Lemma number_head_facts c :
  number_head c = true ->
  Ascii.eqb c dquote = false /\ Ascii.eqb c "{"%char = false
  /\ Ascii.eqb c "["%char = false
  /\ Ascii.eqb "n"%char c = false /\ Ascii.eqb "t"%char c = false
  /\ Ascii.eqb "f"%char c = false /\ is_ws c = false
  /\ Ascii.eqb c "]"%char = false.
Proof.
  destruct c as [[] [] [] [] [] [] [] []]; intros H;
    solve [discriminate H | repeat split].
Qed.

Lemma pretty_head (n : Z) rest :
  exists c tail, pretty n +:+ rest = String c tail /\ number_head c = true.
Proof.
  destruct n as [|p|p].
  - eexists _, _. split; reflexivity.
  - rewrite pretty_Zpos.
    destruct (positive_digits p) as (c & digits & -> & Hc & _).
    exists c, (digits +:+ rest). split; [reflexivity|].
    unfold number_head. now rewrite Hc.
  - rewrite pretty_Zneg. eexists _, _. split; reflexivity.
Qed.

Section RoundTrip.

Variable float_of_string : string -> float.
Variable float_repr : float -> string.
Variable max_digits : nat.

Lemma limit_ok digits :
  (max_digits =? 0)%nat || (String.length digits <=? max_digits)%nat = true ->
  negb (max_digits =? 0)%nat && (max_digits <? String.length digits)%nat
  = false.
Proof.
  intros H. apply orb_true_iff in H as [H|H].
  - now rewrite H.
  - apply Nat.leb_le in H. apply andb_false_iff. right.
    apply Nat.ltb_ge. exact H.
Qed.

Lemma parse_int_unsigned c digits :
  Ascii.eqb c "-"%char = false ->
  (max_digits =? 0)%nat
  || (String.length (String c digits) <=? max_digits)%nat = true ->
  parse_int max_digits (String c digits)
  = Got (JInt (Z.of_N (digits_value 0 (String c digits)))).
Proof.
  intros Hminus Hlimit. unfold parse_int.
  rewrite Hminus, limit_ok by assumption. reflexivity.
Qed.

Lemma parse_int_signed digits :
  (max_digits =? 0)%nat || (String.length digits <=? max_digits)%nat = true ->
  parse_int max_digits (String "-"%char digits)
  = Got (JInt (- Z.of_N (digits_value 0 digits))).
Proof.
  intros Hlimit. unfold parse_int.
  change (Ascii.eqb "-" "-") with true. cbv beta iota.
  rewrite limit_ok by assumption. reflexivity.
Qed.

Lemma parse_int_pretty n :
  int_ok max_digits n = true ->
  parse_int max_digits (pretty n) = Got (JInt n).
Proof.
  unfold int_ok. intros Hok.
  destruct n as [|p|p].
  - change (pretty 0%Z) with "0". rewrite parse_int_unsigned; auto.
  - change (Z.abs (Z.pos p)) with (Z.pos p) in Hok. rewrite pretty_Zpos in *.
    destruct (positive_digits p) as (c & digits & Heq & Hc & _ & _ & Hval).
    rewrite Heq in *.
    destruct (digit_head c Hc) as (_ & _ & _ & Hminus & _).
    rewrite parse_int_unsigned, Hval by assumption. reflexivity.
  - change (Z.abs (Z.neg p)) with (Z.pos p) in Hok. rewrite pretty_Zpos in Hok.
    rewrite pretty_Zneg.
    destruct (positive_digits p) as (c & digits & Heq & _ & _ & _ & Hval).
    rewrite Heq in *.
    rewrite parse_int_signed, Hval by assumption. reflexivity.
Qed.

Lemma scan_atom_int n rest :
  int_ok max_digits n = true ->
  delimited rest = true ->
  scan_atom float_of_string max_digits (pretty n +:+ rest)
  = Got (JInt n, rest).
Proof.
  intros Hok Hrest. unfold scan_atom.
  rewrite match_number_int by assumption.
  destruct (pretty_head n rest) as (c & tail & -> & Hc).
  destruct (number_head_facts c Hc) as (_ & _ & _ & Hn & Ht & Hf & _).
  cbn [strip_prefix]. rewrite Hn, Ht, Hf.
  unfold number_value. cbn [frac exponent integer after_number].
  rewrite parse_int_pretty by assumption. reflexivity.
Qed.

Lemma scan_once_int fuel depth n rest :
  int_ok max_digits n = true ->
  delimited rest = true ->
  scan_once float_of_string max_digits (S fuel) depth (pretty n +:+ rest)
  = Got (JInt n, rest).
Proof.
  intros Hok Hrest.
  rewrite <- (scan_atom_int n rest) by assumption.
  destruct (pretty_head n rest) as (c & tail & -> & Hc).
  destruct (number_head_facts c Hc) as (Hq & Hbrace & Hbracket & _).
  cbn [scan_once]. now rewrite Hq, Hbrace, Hbracket.
Qed.

End RoundTrip.

(** ** Arrays and objects *)


Lemma skip_ws_head text : head_ok text = true -> skip_ws text = text.
Proof.
  destruct text as [|c text]; [discriminate|].
  simpl. intros H. apply andb_prop in H as [H _].
  apply negb_true_iff in H. now rewrite H.
Qed.

Lemma skip_ws_spaces n text : skip_ws (spaces n +:+ text) = skip_ws text.
Proof. induction n as [|n IH]; [reflexivity|]. exact IH. Qed.

Lemma skip_ws_newline_indent indent level text :
  skip_ws (newline_indent indent level +:+ text) = skip_ws text.
Proof.
  destruct indent as [width|]; [|reflexivity].
  unfold newline_indent. rewrite string_app_assoc.
  apply (skip_ws_spaces (width * level)).
Qed.

(** The separator of the items: a comma, then white space only. *)
Lemma separator_shape indent level :
  exists ws,
    item_separator indent +:+ newline_indent indent level = String "," ws
    /\ forall text, skip_ws (ws +:+ text) = skip_ws text.
Proof.
  destruct indent as [width|].
  - exists (newline_indent (Some width) level). split; [reflexivity|].
    apply skip_ws_newline_indent.
  - exists " ". split; reflexivity.
Qed.

Lemma delimited_newline_indent indent level c text :
  delimited (String c text) = true ->
  delimited (newline_indent indent level +:+ String c text) = true.
Proof. destruct indent; intros H; [reflexivity|exact H]. Qed.

Lemma join_cons sep chunk chunk' chunks :
  join sep (chunk :: chunk' :: chunks)
  = chunk +:+ sep +:+ join sep (chunk' :: chunks).
Proof. reflexivity. Qed.

Lemma join_head sep chunk chunks tail :
  exists after, join sep (chunk :: chunks) +:+ tail = chunk +:+ after.
Proof.
  destruct chunks as [|chunk' chunks].
  - exists tail. reflexivity.
  - exists (sep +:+ join sep (chunk' :: chunks) +:+ tail).
    rewrite join_cons, !string_app_assoc. reflexivity.
Qed.

Section Structure.

Variable float_of_string : string -> float.
Variable float_repr : float -> string.
Variable max_digits : nat.

Lemma iterencode_array indent level v items :
  iterencode py_encode_basestring_ascii float_repr indent level
    (JArray (v :: items))
  = "[" +:+ newline_indent indent (S level)
    +:+ join (item_separator indent +:+ newline_indent indent (S level))
          (map (iterencode py_encode_basestring_ascii float_repr indent
                  (S level)) (v :: items))
    +:+ newline_indent indent level +:+ "]".
Proof. reflexivity. Qed.

(** The text of one entry of an object. *)

Lemma iterencode_object indent level kv fields :
  iterencode py_encode_basestring_ascii float_repr indent level
    (JObject (kv :: fields))
  = "{" +:+ newline_indent indent (S level)
    +:+ join (item_separator indent +:+ newline_indent indent (S level))
          (map (chunk_of float_repr indent (S level)) (kv :: fields))
    +:+ newline_indent indent level +:+ "}".
Proof.
  cbn [iterencode].
  rewrite (map_ext _ (chunk_of float_repr indent (S level))); [reflexivity|].
  intros [k v]. reflexivity.
Qed.

(** The text of a value starts with no white space and no closing
    bracket. *)
Lemma value_head indent level depth v after :
  json_ok max_digits depth v = true ->
  head_ok (iterencode py_encode_basestring_ascii float_repr indent level v
           +:+ after) = true.
Proof.
  intros Hok.
  destruct v as [|[]|n|f|s|[|v items]|[|kv fields]];
    try reflexivity; try (simpl in Hok; discriminate).
  cbn [iterencode].
  destruct (pretty_head n after) as (c & tail & -> & Hc).
  destruct (number_head_facts c Hc) as (_ & _ & _ & _ & _ & _ & Hws & Hclose).
  simpl. now rewrite Hws, Hclose.
Qed.

End Structure.

Lemma dict_set_fresh key v fields :
  key ∉ keys fields -> dict_set key v fields = (fields ++ [(key, v)])%list.
Proof.
  induction fields as [|[k w] fields IH]; intros Hfresh; [reflexivity|].
  simpl in *. apply not_elem_of_cons in Hfresh as [Hne Hfresh].
  apply String.eqb_neq in Hne. rewrite Hne, IH by assumption. reflexivity.
Qed.

Lemma dict_of_pairs_distinct fields :
  NoDup (keys fields) -> dict_of_pairs fields = fields.
Proof.
  unfold dict_of_pairs.
  enough (forall acc,
            NoDup (keys (acc ++ fields)%list) ->
            fold_left (fun d kv => dict_set (fst kv) (snd kv) d) fields acc
            = (acc ++ fields)%list) as H by (intros Hnd; apply (H [] Hnd)).
  induction fields as [|[k v] fields IH]; intros acc Hnd.
  - simpl. now rewrite app_nil_r.
  - simpl. rewrite dict_set_fresh.
    + rewrite IH; rewrite <- app_assoc; [reflexivity|exact Hnd].
    + unfold keys in Hnd. rewrite map_app in Hnd.
      apply NoDup_app in Hnd as (_ & Hdisjoint & _).
      intros Hin. apply (Hdisjoint k Hin). simpl. left.
Qed.

Section Scanner.

Variable float_of_string : string -> float.
Variable float_repr : float -> string.
Variable max_digits : nat.

Lemma scan_items_step fuel depth text :
  scan_items float_of_string max_digits (S fuel) depth text
  = and_then (scan_once float_of_string max_digits fuel depth text)
      (fun vr =>
         match skip_ws (snd vr) with
         | String c rest =>
             if Ascii.eqb c "]"%char then Got ([fst vr], rest)
             else if Ascii.eqb c ","%char then
               and_then
                 (scan_items float_of_string max_digits fuel depth
                    (skip_ws rest))
                 (fun ir => Got (fst vr :: fst ir, snd ir))
             else Fails expecting_comma
         | EmptyString => Fails expecting_comma
         end).
Proof. reflexivity. Qed.

Lemma scan_pairs_step fuel depth text :
  scan_pairs float_of_string max_digits (S fuel) depth text
  = and_then (scanstring text)
      (fun kr =>
         match skip_ws (snd kr) with
         | String c rest =>
             if Ascii.eqb c ":"%char then
               and_then
                 (scan_once float_of_string max_digits fuel depth
                    (skip_ws rest))
                 (fun vr =>
                    match skip_ws (snd vr) with
                    | String c' rest' =>
                        if Ascii.eqb c' "}"%char
                        then Got ([(fst kr, fst vr)], rest')
                        else if Ascii.eqb c' ","%char then
                          match skip_ws rest' with
                          | String q rest'' =>
                              if Ascii.eqb q dquote then
                                and_then
                                  (scan_pairs float_of_string max_digits fuel
                                     depth rest'')
                                  (fun pr =>
                                     Got ((fst kr, fst vr) :: fst pr, snd pr))
                              else Fails expecting_name
                          | EmptyString => Fails expecting_name
                          end
                        else Fails expecting_comma
                    | EmptyString => Fails expecting_comma
                    end)
             else Fails expecting_colon
         | EmptyString => Fails expecting_colon
         end).
Proof. reflexivity. Qed.

Lemma scan_once_string fuel depth rest :
  scan_once float_of_string max_digits (S fuel) depth (String dquote rest)
  = and_then (scanstring rest) (fun sr => Got (JString (fst sr), snd sr)).
Proof. reflexivity. Qed.

Lemma scan_once_array fuel depth rest :
  scan_once float_of_string max_digits (S fuel) (S depth) (String "["%char rest)
  = match skip_ws rest with
    | String c' rest' =>
        if Ascii.eqb c' "]"%char then Got (JArray [], rest')
        else
          and_then
            (scan_items float_of_string max_digits fuel depth (skip_ws rest))
            (fun ir => Got (JArray (fst ir), snd ir))
    | EmptyString => Fails expecting_value
    end.
Proof. reflexivity. Qed.

Lemma scan_once_object fuel depth rest :
  scan_once float_of_string max_digits (S fuel) (S depth) (String "{"%char rest)
  = match skip_ws rest with
    | String c' rest' =>
        if Ascii.eqb c' "}"%char then Got (JObject [], rest')
        else if Ascii.eqb c' dquote then
          and_then (scan_pairs float_of_string max_digits fuel depth rest')
            (fun pr => Got (JObject (dict_of_pairs (fst pr)), snd pr))
        else Fails expecting_name
    | EmptyString => Fails expecting_name
    end.
Proof. reflexivity. Qed.


Lemma scan_items_join indent level ws tail depth rest items :
  Forall (comes_back float_of_string float_repr max_digits) items ->
  items <> [] ->
  forallb (json_ok max_digits depth) items = true ->
  (forall text, skip_ws (ws +:+ text) = skip_ws text) ->
  skip_ws tail = String "]"%char rest ->
  delimited tail = true ->
  forall fuel,
    (list_sum (map (fun item => S (weight item)) items) <= fuel)%nat ->
    scan_items float_of_string max_digits fuel depth
      (join (String ","%char ws)
         (map (iterencode py_encode_basestring_ascii float_repr indent level)
            items)
       +:+ tail)
    = Got (items, rest).
Proof.
  intros Hall Hne Hok Hws Htail Hdelim.
  induction Hall as [|v items Hv Hall IH]; [contradiction|].
  intros fuel Hfuel. simpl in Hok, Hfuel.
  apply andb_prop in Hok as [Hokv Hoks].
  destruct fuel as [|fuel]; [lia|].
  rewrite scan_items_step.
  destruct items as [|v' items].
  - cbn [map join]. rewrite Hv by (auto; simpl in *; lia).
    cbn [and_then fst snd]. rewrite Htail. reflexivity.
  - cbn [map]. rewrite join_cons, !string_app_assoc.
    rewrite Hv by (auto; simpl in *; lia).
    cbn [and_then fst snd].
    change (String ","%char ws +:+ ?x) with (String ","%char (ws +:+ x)).
    cbn [skip_ws]. change (is_ws ","%char) with false. cbv iota.
    change (Ascii.eqb ","%char "]"%char) with false.
    change (Ascii.eqb ","%char ","%char) with true. cbv iota.
    rewrite Hws.
    destruct (join_head (String ","%char ws)
                (iterencode py_encode_basestring_ascii float_repr indent
                   level v')
                (map (iterencode py_encode_basestring_ascii float_repr indent
                        level) items) tail) as [after Hafter].
    rewrite skip_ws_head
      by (cbn [map] in Hafter; rewrite Hafter;
          simpl in Hoks; apply andb_prop in Hoks as [Hokv' _];
          exact (value_head float_repr max_digits indent level depth v'
                   after Hokv')).
    change (iterencode py_encode_basestring_ascii float_repr indent level v'
            :: map (iterencode py_encode_basestring_ascii float_repr indent
                      level) items)
      with (map (iterencode py_encode_basestring_ascii float_repr indent
                   level) (v' :: items)).
    rewrite IH; [reflexivity|discriminate|exact Hoks|simpl in *; lia].
Qed.

Lemma skip_ws_colon text :
  skip_ws (String ":"%char text) = String ":"%char text.
Proof. reflexivity. Qed.

Lemma skip_ws_comma text :
  skip_ws (String ","%char text) = String ","%char text.
Proof. reflexivity. Qed.

Lemma skip_ws_space text : skip_ws (String " "%char text) = skip_ws text.
Proof. reflexivity. Qed.

Lemma skip_ws_quote text : skip_ws (String dquote text) = String dquote text.
Proof. reflexivity. Qed.

Lemma string_cons_inj c a b : String c a = String c b -> a = b.
Proof. now intros [= ->]. Qed.

Lemma quoted_head text : quote_text +:+ text = String dquote text.
Proof. reflexivity. Qed.

Lemma chunk_text indent level k v after :
  chunk_of float_repr indent level (k, v) +:+ after
  = String dquote
      (escape k +:+ quote_text
       +:+ String ":"%char
             (String " "%char
                (iterencode py_encode_basestring_ascii float_repr indent
                   level v +:+ after))).
Proof.
  unfold chunk_of, py_encode_basestring_ascii. cbn [fst snd].
  rewrite !string_app_assoc. reflexivity.
Qed.

Lemma scan_pairs_join indent level ws tail depth rest fields :
  Forall (fun kv => comes_back float_of_string float_repr max_digits (snd kv))
    fields ->
  fields <> [] ->
  forallb (fun kv => json_ok max_digits depth (snd kv)) fields = true ->
  (forall text, skip_ws (ws +:+ text) = skip_ws text) ->
  skip_ws tail = String "}"%char rest ->
  delimited tail = true ->
  forall fuel body,
    (list_sum (map (fun kv => S (weight (snd kv))) fields) <= fuel)%nat ->
    join (String ","%char ws) (map (chunk_of float_repr indent level) fields)
    +:+ tail
    = String dquote body ->
    scan_pairs float_of_string max_digits fuel depth body
    = Got (fields, rest).
Proof.
  intros Hall Hne Hok Hws Htail Hdelim.
  induction Hall as [|[k v] fields Hv Hall IH]; [contradiction|].
  intros fuel body Hfuel Hbody. simpl in Hok, Hfuel, Hv.
  apply andb_prop in Hok as [Hokv Hoks].
  destruct fuel as [|fuel]; [lia|].
  rewrite scan_pairs_step.
  destruct fields as [|kv' fields].
  - cbn [map join] in Hbody. rewrite chunk_text in Hbody.
    symmetry in Hbody. apply string_cons_inj in Hbody. subst body.
    rewrite scanstring_escape. cbn [and_then fst snd].
    rewrite skip_ws_colon. rewrite Ascii.eqb_refl. rewrite skip_ws_space.
    rewrite skip_ws_head
      by exact (value_head float_repr max_digits indent level depth v tail
                  Hokv).
    rewrite Hv by (auto; simpl in *; lia).
    cbn [and_then fst snd]. rewrite Htail. reflexivity.
  - cbn [map] in Hbody. rewrite join_cons, !string_app_assoc in Hbody.
    rewrite chunk_text in Hbody.
    symmetry in Hbody. apply string_cons_inj in Hbody. subst body.
    rewrite scanstring_escape. cbn [and_then fst snd].
    rewrite skip_ws_colon. rewrite Ascii.eqb_refl. rewrite skip_ws_space.
    rewrite skip_ws_head
      by exact (value_head float_repr max_digits indent level depth v _
                  Hokv).
    rewrite Hv by (auto; simpl in *; lia).
    cbn [and_then fst snd].
    change (String ","%char ws +:+ ?x) with (String ","%char (ws +:+ x)).
    rewrite skip_ws_comma.
    change (Ascii.eqb ","%char "}"%char) with false.
    rewrite Ascii.eqb_refl. cbv iota.
    rewrite Hws.
    destruct (join_head (String ","%char ws)
                (chunk_of float_repr indent level kv')
                (map (chunk_of float_repr indent level) fields) tail)
      as [after Hafter].
    destruct kv' as [k' v'].
    rewrite chunk_text in Hafter.
    rewrite Hafter, skip_ws_quote, Ascii.eqb_refl.
    rewrite (IH ltac:(discriminate) Hoks fuel _ ltac:(simpl in *; lia)
               Hafter).
    reflexivity.
Qed.

(** Every value without a float comes back from its text. *)
Lemma comes_back_all v :
  comes_back float_of_string float_repr max_digits v.
Proof.
  induction v as [|b|n|f|s|items IH|fields IH] using json_nested_ind;
    intros indent level fuel depth rest Hok Hfuel Hrest;
    (destruct fuel as [|fuel]; [simpl in Hfuel; lia|]).
  - reflexivity.
  - destruct b; reflexivity.
  - apply scan_once_int; assumption.
  - discriminate.
  - cbn [iterencode]. unfold py_encode_basestring_ascii.
    rewrite !string_app_assoc, quoted_head, scan_once_string.
    rewrite scanstring_escape. reflexivity.
  - simpl in Hok. destruct depth as [|depth]; [discriminate|].
    destruct items as [|v items]; [reflexivity|].
    rewrite iterencode_array, !string_app_assoc.
    destruct (separator_shape indent (S level)) as (ws & -> & Hws).
    change ("[" +:+ ?x) with (String "["%char x).
    rewrite scan_once_array, skip_ws_newline_indent.
    destruct (join_head (String ","%char ws)
                (iterencode py_encode_basestring_ascii float_repr indent
                   (S level) v)
                (map (iterencode py_encode_basestring_ascii float_repr indent
                        (S level)) items)
                (newline_indent indent level +:+ "]" +:+ rest))
      as [after Hafter].
    assert (head_ok
              (join (String ","%char ws)
                 (map (iterencode py_encode_basestring_ascii float_repr
                         indent (S level)) (v :: items))
               +:+ newline_indent indent level +:+ "]" +:+ rest) = true)
      as Hhead.
    { cbn [map]. rewrite Hafter.
      simpl in Hok. apply andb_prop in Hok as [Hokv _].
      exact (value_head float_repr max_digits indent (S level) depth v after
               Hokv). }
    rewrite skip_ws_head by exact Hhead.
    rewrite (scan_items_join indent (S level) ws
               (newline_indent indent level +:+ "]" +:+ rest) depth rest
               (v :: items) IH ltac:(discriminate) Hok Hws);
      [| |destruct indent; reflexivity|simpl in *; lia].
    + destruct (join (String ","%char ws) _ +:+ _) as [|c text] eqn:Htext;
        [discriminate|].
      simpl in Hhead. apply andb_prop in Hhead as [_ Hclose].
      apply negb_true_iff in Hclose. rewrite Hclose. reflexivity.
    + rewrite skip_ws_newline_indent. reflexivity.
  - simpl in Hok. destruct depth as [|depth]; [discriminate|].
    destruct fields as [|kv fields]; [reflexivity|].
    apply andb_prop in Hok as [Hdistinct Hok].
    apply bool_decide_eq_true in Hdistinct.
    rewrite iterencode_object, !string_app_assoc.
    destruct (separator_shape indent (S level)) as (ws & -> & Hws).
    change ("{" +:+ ?x) with (String "{"%char x).
    rewrite scan_once_object, skip_ws_newline_indent.
    destruct (join_head (String ","%char ws)
                (chunk_of float_repr indent (S level) kv)
                (map (chunk_of float_repr indent (S level)) fields)
                (newline_indent indent level +:+ "}" +:+ rest))
      as [after Hafter].
    destruct kv as [k v]. rewrite chunk_text in Hafter.
    cbn [map]. rewrite Hafter, skip_ws_quote.
    change (Ascii.eqb dquote "}"%char) with false.
    rewrite Ascii.eqb_refl. cbv iota.
    rewrite (scan_pairs_join indent (S level) ws
               (newline_indent indent level +:+ "}" +:+ rest) depth rest
               ((k, v) :: fields) IH ltac:(discriminate) Hok Hws
               ltac:(rewrite skip_ws_newline_indent; reflexivity)
               ltac:(destruct indent; reflexivity)
               fuel _ ltac:(simpl in *; lia) Hafter).
    cbn [and_then fst snd].
    rewrite dict_of_pairs_distinct by exact Hdistinct. reflexivity.
Qed.

End Scanner.

Lemma string_length_app a b :
  String.length (a +:+ b) = (String.length a + String.length b)%nat.
Proof.
  induction a as [|c a IH]; [reflexivity|].
  change (String c a +:+ b) with (String c (a +:+ b)).
  simpl. now rewrite IH.
Qed.

Lemma join_weight {A} (text : A -> string) (w : A -> nat) sep xs :
  (1 <= String.length sep)%nat ->
  Forall (fun x => (w x <= String.length (text x))%nat) xs ->
  (list_sum (map (fun x => S (w x)) xs)
   <= S (String.length (join sep (map text xs))))%nat.
Proof.
  intros Hsep Hall.
  induction Hall as [|x xs Hx Hall IH]; [simpl; lia|].
  destruct xs as [|x' xs].
  - cbn [map join list_sum fold_right]. lia.
  - cbn [map] in *. rewrite join_cons, !string_length_app.
    cbn [list_sum fold_right] in *. lia.
Qed.

Section Lengths.

Variable float_repr : float -> string.
Variable max_digits : nat.

Lemma separator_length indent level :
  (1 <= String.length
          (item_separator indent +:+ newline_indent indent level))%nat.
Proof. rewrite string_length_app. destruct indent; simpl; lia. Qed.

Lemma weight_length v :
  forall indent level depth,
    json_ok max_digits depth v = true ->
    (weight v
     <= String.length
          (iterencode py_encode_basestring_ascii float_repr indent level
             v))%nat.
Proof.
  induction v as [|b|n|f|s|items IH|fields IH] using json_nested_ind;
    intros indent level depth Hok.
  - simpl. lia.
  - destruct b; simpl; lia.
  - destruct (pretty_head n "") as (c & tail & Htext & _).
    rewrite string_app_nil_r in Htext. cbn [iterencode weight].
    rewrite Htext. simpl. lia.
  - discriminate.
  - cbn [iterencode weight]. unfold py_encode_basestring_ascii.
    rewrite quoted_head. simpl. lia.
  - simpl in Hok. destruct depth as [|depth]; [discriminate|].
    destruct items as [|v items]; [simpl; lia|].
    rewrite iterencode_array, !string_length_app. cbn [weight].
    pose proof (join_weight
                  (iterencode py_encode_basestring_ascii float_repr indent
                     (S level)) weight
                  (item_separator indent +:+ newline_indent indent (S level))
                  (v :: items) (separator_length indent (S level))) as Hjoin.
    lapply Hjoin; [simpl; lia|].
    apply Forall_forall. intros item Hin.
    rewrite Forall_forall in IH. apply (IH item Hin indent (S level) depth).
    rewrite forallb_forall in Hok. apply Hok. now apply list_elem_of_In.
  - simpl in Hok. destruct depth as [|depth]; [discriminate|].
    destruct fields as [|kv fields]; [simpl; lia|].
    apply andb_prop in Hok as [_ Hok].
    rewrite iterencode_object, !string_length_app. cbn [weight].
    pose proof (join_weight (chunk_of float_repr indent (S level))
                  (fun kv => weight (snd kv))
                  (item_separator indent +:+ newline_indent indent (S level))
                  (kv :: fields) (separator_length indent (S level))) as Hjoin.
    lapply Hjoin; [simpl; lia|].
    apply Forall_forall. intros [k item] Hin.
    rewrite Forall_forall in IH. unfold chunk_of.
    rewrite !string_length_app. cbn [fst snd].
    pose proof (IH (k, item) Hin indent (S level) depth) as Hitem.
    cbn [snd] in Hitem. lapply Hitem; [lia|].
    rewrite forallb_forall in Hok.
    apply (Hok (k, item)). now apply list_elem_of_In.
Qed.

End Lengths.

Section RoundTripTop.

Variable float_of_string : string -> float.
Variable float_repr : float -> string.
Variable max_digits : nat.

Lemma value_round_trip indent depth v :
  json_ok max_digits depth v = true ->
  json_parse float_of_string max_digits depth
    (json_dumps py_encode_basestring_ascii float_repr indent v)
  = Got v.
Proof.
  intros Hok. unfold json_parse, json_dumps.
  pose proof (value_head float_repr max_digits indent 0 depth v "" Hok)
    as Hhead.
  rewrite string_app_nil_r in Hhead.
  rewrite skip_ws_head by exact Hhead.
  rewrite <- (string_app_nil_r (iterencode _ _ _ _ v)) at 2.
  rewrite (comes_back_all float_of_string float_repr max_digits v indent 0%nat
             _ depth "" Hok); [reflexivity| |reflexivity].
  pose proof (weight_length float_repr max_digits v indent 0%nat depth Hok).
  lia.
Qed.

End RoundTripTop.

Section Limits.

Variable max_digits : nat.

Lemma json_ok_mono v :
  forall depth depth',
    (depth <= depth')%nat ->
    json_ok max_digits depth v = true ->
    json_ok max_digits depth' v = true.
Proof.
  induction v as [|b|n|f|s|items IH|fields IH] using json_nested_ind;
    intros depth depth' Hle Hok; try exact Hok.
  - destruct depth as [|depth]; [discriminate|].
    destruct depth' as [|depth']; [lia|].
    cbn [json_ok] in *. rewrite forallb_forall in *.
    intros item Hin. rewrite Forall_forall in IH.
    apply (IH item (proj2 (list_elem_of_In _ _) Hin) depth depth');
      [lia|now apply Hok].
  - destruct depth as [|depth]; [discriminate|].
    destruct depth' as [|depth']; [lia|].
    cbn [json_ok] in *. apply andb_prop in Hok as [Hkeys Hok].
    rewrite Hkeys. cbn [andb]. rewrite forallb_forall in *.
    intros kv Hin. rewrite Forall_forall in IH.
    apply (IH kv (proj2 (list_elem_of_In _ _) Hin) depth depth');
      [lia|now apply Hok].
Qed.

Lemma json_ok_assoc depth fields key v :
  json_ok max_digits (S depth) (JObject fields) = true ->
  assoc key fields = Some v ->
  json_ok max_digits depth v = true.
Proof.
  cbn [json_ok]. intros Hok. apply andb_prop in Hok as [_ Hok].
  induction fields as [|[k w] fields IH]; [discriminate|].
  cbn [forallb assoc snd] in *. apply andb_prop in Hok as [Hw Hok].
  destruct (String.eqb key k); [now intros [= <-]|now apply IH].
Qed.

Lemma json_ok_inventory_of depth ec2_ip domain version token :
  json_ok max_digits depth ec2_ip = true ->
  json_ok max_digits (S depth) domain = true ->
  json_ok max_digits (S depth) version = true ->
  json_ok max_digits (S depth) token = true ->
  json_ok max_digits (4 + depth) (inventory_of ec2_ip domain version token)
  = true.
Proof.
  intros Hip Hdomain Hversion Htoken.
  unfold inventory_of. cbn [json_ok forallb keys map fst snd Nat.add].
  rewrite Hip, Hdomain, Hversion, Htoken.
  vm_compute. reflexivity.
Qed.

End Limits.

(** ** The parser on small texts *)

Example parse_array :
  json_parse sample_float_of_string 4300 10 " [1, -20, true, null, 1.0] "
  = Got (JArray [JInt 1; JInt (-20); JBool true; JNull;
                 JFloat PrimFloat.one]).
Proof. vm_compute. reflexivity. Qed.

Example parse_object :
  json_parse sample_float_of_string 4300 10
    ("{" +:+ quote_text +:+ "a" +:+ quote_text +:+ ": [], "
     +:+ quote_text +:+ "b\u0041\n" +:+ quote_text +:+ ": {}, "
     +:+ quote_text +:+ "a" +:+ quote_text +:+ ": 0}")
  = Got (JObject [("a", JInt 0); ("bA" +:+ newline, JObject [])]).
Proof. vm_compute. reflexivity. Qed.

Example parse_trailing_comma :
  json_parse sample_float_of_string 4300 10 "[1,]" = Fails expecting_value.
Proof. reflexivity. Qed.

Example parse_leading_zero :
  json_parse sample_float_of_string 4300 10 "01"
  = Fails (NotJSON "Extra data").
Proof. reflexivity. Qed.

Example parse_too_deep :
  json_parse sample_float_of_string 4300 1 "[[]]" = Fails too_deep.
Proof. reflexivity. Qed.

Example parse_too_long :
  json_parse sample_float_of_string 3 10 "-12345" = Fails too_long.
Proof. reflexivity. Qed.

(** ** The inventory *)

Section InventoryRoundTrip.

Variable exn_str : exn -> string.
Variable float_of_string : string -> float.
Variable float_repr : float -> string.
Variable max_digits : nat.


(** The builder keeps the output within the limits: a document built
    from an output without a float, within the digits and [depth]
    levels of nesting, holds no float and nests two levels more at
    most. *)
Theorem build_within_limits terraform_output s doc s' depth :
  json_ok max_digits depth terraform_output = true ->
  build exn_str terraform_output s = (Ok doc, s') ->
  json_ok max_digits (2 + depth) doc = true.
Proof.
  intros Hok.
  unfold build, try_except, bind, py_get, ret, raise, py_not.
  destruct terraform_output as [| | | | | |fields]; simpl; try discriminate.
  destruct depth as [|depth]; [discriminate|].
  pose proof (json_ok_assoc max_digits depth fields) as Hentry.
  specialize (fun key v => Hentry key v Hok).
  destruct (assoc "ec2_public_ip" fields) as [[| | | | | |f_ip]|] eqn:Hip;
    simpl; try discriminate;
  (destruct (assoc "vault_domain" fields) as [[| | | | | |f_dom]|] eqn:Hdom;
    simpl; try discriminate).
  - pose proof (Hentry _ _ Hip) as Hokip.
    pose proof (Hentry _ _ Hdom) as Hokdom.
    destruct depth as [|depth]; [discriminate|].
    destruct (assoc "value" f_ip) as [ip|] eqn:Hvip; simpl;
      [destruct (truthy ip); simpl|]; intros [= <- _]; try reflexivity.
    apply json_ok_inventory_of; try reflexivity.
    + exact (json_ok_assoc max_digits depth f_ip _ _ Hokip Hvip).
    + destruct (assoc "value" f_dom) as [dom|] eqn:Hvdom; [|reflexivity].
      apply (json_ok_mono max_digits dom depth); [lia|].
      exact (json_ok_assoc max_digits depth f_dom _ _ Hokdom Hvdom).
  - pose proof (Hentry _ _ Hip) as Hokip.
    destruct depth as [|depth]; [discriminate|].
    destruct (assoc "value" f_ip) as [ip|] eqn:Hvip; simpl;
      [destruct (truthy ip); simpl|]; intros [= <- _]; try reflexivity.
    apply json_ok_inventory_of; try reflexivity.
    exact (json_ok_assoc max_digits depth f_ip _ _ Hokip Hvip).
  - intros [= <- _]. reflexivity.
  - intros [= <- _]. reflexivity.
Qed.

End InventoryRoundTrip.

Example scenario_inventory_parsed :
  json_parse sample_float_of_string 4300 4
    (json_dumps py_encode_basestring_ascii sample_float_repr (Some 2%nat)
       scenario_inventory)
  = Got scenario_inventory.
Proof. vm_compute. reflexivity. Qed.


Lemma build_within_limits_scenario :
  json_ok 4300 2 (JObject scenario) = true
  /\ json_ok 4300 4 scenario_inventory = true.
Proof.
  split; [reflexivity|].
  apply (build_within_limits sample_exn_str 4300 (JObject scenario) fresh
           scenario_inventory fresh 2);
    reflexivity.
Defined.
